(** * depthimage_to_pointcloud2: the depth-to-point-cloud conversion

    A shallow embedding of [convert<T>] (depth_conversions.hpp) and of the
    node callback [Depthimage2Pointcloud2::depthCb]
    (depthimage_to_pointcloud2_node.cpp), with the properties the
    specification states about them.

    Conventions.
    - C++ [float] and [double] values are [spec_float]s of the Standard
      Library, computed with binary32 (prec 24, emax 128) and binary64
      (prec 53, emax 1024) rounding to nearest even.  A [spec_float] has a
      single NaN; its bit pattern is taken to be the quiet NaN 0x7FC00000.
    - Integers are [Z]; narrowing casts are written out.
    - Raw memory (message payloads, [cv::Mat] data) is a [list Z] of bytes,
      read little-endian.  An access outside a buffer is undefined in C++;
      here it is a [Fault]. *)

From Stdlib Require Import ZArith Lia Bool String.
From Stdlib Require Import Floats.SpecFloat.
From stdpp Require Import base list.

Local Open Scope Z_scope.

(* ------------------------------------------------------------------ *)
(** ** Outcomes of a computation that may touch memory out of range *)

Inductive fault : Type :=
| DepthOutOfBounds   (* read past the depth image payload *)
| ColorOutOfBounds   (* read past the cv::Mat data *)
| CloudOutOfBounds   (* write past the point cloud payload *)
| OutOfFuel.         (* the loop model ran out of iterations *)

Inductive res (A : Type) : Type :=
| Ok (a : A)
| Fault (f : fault).

Arguments Ok {A} a.
Arguments Fault {A} f.

#[global] Instance res_ret : MRet res := fun A a => Ok a.

#[global] Instance res_bind : MBind res := fun A B k m =>
  match m with
  | Ok a => k a
  | Fault f => Fault f
  end.

Definition is_ok {A : Type} (m : res A) : bool :=
  match m with Ok _ => true | Fault _ => false end.

(* ------------------------------------------------------------------ *)
(** ** IEEE-754 arithmetic of the two C++ floating-point types *)

Module IEEE.

Definition float : Type := spec_float.   (* C++ float, binary32 *)
Definition double : Type := spec_float.  (* C++ double, binary64 *)

Definition f32_round (x : spec_float) : float :=
  match x with
  | S754_finite s m e => binary_round 24 128 s m e
  | _ => x
  end.

Definition f64_round (x : spec_float) : double :=
  match x with
  | S754_finite s m e => binary_round 53 1024 s m e
  | _ => x
  end.

(** Implicit conversions. *)
Definition f32_of_f64 (x : double) : float := f32_round x.
Definition f64_of_f32 (x : float) : double := f64_round x.
Definition f32_of_int (n : Z) : float := binary_normalize 24 128 n 0 false.
Definition f64_of_int (n : Z) : double := binary_normalize 53 1024 n 0 false.

Definition f32_sub : float -> float -> float := SFsub 24 128.
Definition f32_mul : float -> float -> float := SFmul 24 128.
Definition f32_gt (x y : float) : bool := SFltb y x.
Definition f64_mul : double -> double -> double := SFmul 53 1024.
Definition f64_div : double -> double -> double := SFdiv 53 1024.

Definition f64_zero : double := S754_zero false.

(** [x == 0.0]: true for both signed zeros, false for NaN. *)
Definition f64_eq_zero (x : double) : bool := SFeqb x f64_zero.

(** [x != 0.0] *)
Definition f64_ne_zero (x : double) : bool := negb (f64_eq_zero x).

Definition is_nan (x : spec_float) : bool :=
  match x with S754_nan => true | _ => false end.

(** Conversion of a double to an integer type truncates toward zero. *)
Definition f64_trunc (x : double) : Z :=
  match x with
  | S754_finite s m e =>
      let a := match e with
               | Zneg p => Zpos m / 2 ^ Zpos p
               | _ => Zpos m * 2 ^ e
               end in
      if s then - a else a
  | _ => 0
  end.

(** std::numeric_limits<float>::quiet_NaN() *)
Definition quiet_NaN : float := S754_nan.
Definition quiet_NaN_bits : Z := 0x7FC00000.

(** The binary32 interchange format: sign (1), exponent (8), fraction (23). *)
Definition float_of_bits (w : Z) : float :=
  let s := negb (w / 2 ^ 31 =? 0) in
  let e := (w / 2 ^ 23) mod 2 ^ 8 in
  let m := w mod 2 ^ 23 in
  if e =? 0 then
    match m with
    | Zpos p => S754_finite s p (-149)
    | _ => S754_zero s
    end
  else if e =? 255 then
    match m with
    | Z0 => S754_infinity s
    | _ => S754_nan
    end
  else
    match m + 2 ^ 23 with
    | Zpos p => S754_finite s p (e - 150)
    | _ => S754_nan
    end.

Definition join_bits (s : bool) (m e : Z) : Z :=
  (if s then 2 ^ 31 else 0) + e * 2 ^ 23 + m.

Definition bits_of_float (x : float) : Z :=
  match x with
  | S754_zero s => join_bits s 0 0
  | S754_infinity s => join_bits s 0 255
  | S754_nan => quiet_NaN_bits
  | S754_finite s m e =>
      if 2 ^ 23 <=? Zpos m then join_bits s (Zpos m - 2 ^ 23) (e + 150)
      else join_bits s (Zpos m) 0
  end.

(** [*reinterpret_cast<float*>(&i)] for a 32-bit [int i]. *)
Definition reinterpret_int_as_float (i : Z) : float :=
  float_of_bits (i mod 2 ^ 32).

End IEEE.

Import IEEE.

(* ------------------------------------------------------------------ *)
(** ** Integer casts and raw memory *)

(** [static_cast<int>] of a 32-bit unsigned value. *)
Definition static_cast_int (x : Z) : Z :=
  let w := x mod 2 ^ 32 in
  if w <? 2 ^ 31 then w else w - 2 ^ 32.

Definition uint32 (x : Z) : Z := x mod 2 ^ 32.
Definition uint16 (x : Z) : Z := x mod 2 ^ 16.

(** Little-endian value of a byte string. *)
Fixpoint le_combine (bs : list Z) : Z :=
  match bs with
  | [] => 0
  | b :: bs' => b + 256 * le_combine bs'
  end.

(** The [n] bytes at byte offset [off] of a buffer. *)
Definition read_bytes (oob : fault) (data : list Z) (off n : Z) : res (list Z) :=
  if (0 <=? off) && (off + n <=? Z.of_nat (length data)) then
    Ok (take (Z.to_nat n) (drop (Z.to_nat off) data))
  else Fault oob.

(* ------------------------------------------------------------------ *)
(** ** Messages and matrices *)

(** sensor_msgs::msg::Image, the fields the conversion reads. *)
Record Image : Type := {
  encoding : string;
  height : Z;             (* uint32 *)
  width : Z;              (* uint32 *)
  step : Z;               (* uint32, bytes per row *)
  data : list Z           (* uint8[] *)
}.

(** image_geometry::PinholeCameraModel, through its accessors. *)
Record PinholeCameraModel : Type := {
  fx : double;
  fy : double;
  cx : double;
  cy : double
}.

(** cv::Mat of 8-bit channels. *)
Record Mat : Type := {
  rows : Z;
  cols : Z;
  type : Z;
  mat_step : Z;           (* bytes per row *)
  mat_data : list Z
}.

Definition CV_8UC1 : Z := 0.
Definition CV_8UC3 : Z := 16.
Definition CV_8UC4 : Z := 24.

(** [m.at<E>(i, j)[k]] with [esz = sizeof(E)]: the byte at
    [data + step * i + esz * j + k].  cv::Mat::at checks its indices only
    in debug builds. *)
Definition mat_at (m : Mat) (esz i j k : Z) : res Z :=
  bs ← read_bytes ColorOutOfBounds (mat_data m) (mat_step m * i + esz * j + k) 1;
  Ok (le_combine bs).

(** The four float fields of one point, x, y, z and rgb, in the layout set
    by [setPointCloud2FieldsByString(2, "xyz", "rgb")]: bytes 0-3, 4-7,
    8-11 and 16-19 of the 32 bytes of a point.  These are the bytes the four
    iterators assign; the other 16 bytes of a point are the padding of the
    cloud, [pc_padding]. *)
Record PointRecord : Type := {
  pt_x : float;
  pt_y : float;
  pt_z : float;
  pt_rgb : float
}.

(** sensor_msgs::msg::PointCloud2.  Its payload [data] is held in two
    parts: [pc_data], the float fields of the points, and [pc_padding], the
    bytes of the payload outside them (bytes 12-15 and 20-31 of each
    point, 16 a point, in payload order), which no iterator reaches. *)
Record PointCloud2 : Type := {
  pc_height : Z;
  pc_width : Z;
  pc_is_dense : bool;
  pc_is_bigendian : bool;
  pc_data : list PointRecord;
  pc_padding : list Z
}.

Definition set_data (c : PointCloud2) (d : list PointRecord) : PointCloud2 :=
  {| pc_height := pc_height c; pc_width := pc_width c;
     pc_is_dense := pc_is_dense c; pc_is_bigendian := pc_is_bigendian c;
     pc_data := d; pc_padding := pc_padding c |}.

(** The four PointCloud2Iterators: they advance in lock step, so one
    position serves for all. *)
Record iters : Type := {
  pos : nat;
  buf : list PointRecord
}.

(** Assignment through the iterators. *)
Definition store (it : iters) (p : PointRecord) : res iters :=
  if (pos it <? length (buf it))%nat then
    Ok {| pos := pos it; buf := <[pos it := p]> (buf it) |}
  else Fault CloudOutOfBounds.

(** [++iter_x, ++iter_y, ++iter_z, ++iter_rgb] *)
Definition advance (it : iters) : iters :=
  {| pos := S (pos it); buf := buf it |}.

(* ------------------------------------------------------------------ *)
(** ** The depth sample types *)

(** What [convert<T>] uses of the language on its template parameter [T]:
    its size, the load of a sample from the payload
    ([reinterpret_cast<const T *>]), the conversion [T(1)], the comparison
    [depth > depth_max] and the conversion of a [T] operand of a float
    product. *)
Class DepthSample (T : Type) : Type := {
  sizeof : Z;
  decode : list Z -> T;
  of_int : Z -> T;
  gt : T -> T -> bool;
  to_float : T -> float
}.

(** Modelled from the spec: depth_traits.hpp, which declares
    [DepthTraits<T>], is not among the sources.  Section 4.1 of the
    specification gives its contract: [toMeters(raw: T) -> double],
    [fromMeters(meters: double) -> T] and [valid(raw: T) -> bool]. *)
Class DepthTraits (T : Type) : Type := {
  toMeters : T -> double;
  fromMeters : double -> T;
  valid : T -> bool
}.

#[global] Instance uint16_sample : DepthSample Z := {|
  sizeof := 2;
  decode bs := uint16 (le_combine bs);
  of_int n := uint16 n;
  gt a b := b <? a;
  to_float a := f32_of_int a
|}.

#[global] Instance float_sample : DepthSample float := {|
  sizeof := 4;
  decode bs := float_of_bits (le_combine bs mod 2 ^ 32);
  of_int n := f32_of_int n;
  gt a b := f32_gt a b;
  to_float a := a
|}.

(** Modelled from the spec: [DepthTraits<uint16_t>] of the missing
    depth_traits.hpp.  "Fixed-point type scales by a fixed
    millimeter-to-meter factor (1/1000)"; [fromMeters] is the "inverse of
    toMeters"; "the sentinel value 0" is invalid. *)
#[global] Instance uint16_traits : DepthTraits Z := {|
  toMeters raw := f64_mul (f64_of_int raw) (f64_div (f64_of_int 1) (f64_of_int 1000));
  fromMeters meters := uint16 (f64_trunc (f64_mul meters (f64_of_int 1000)));
  valid raw := negb (raw =? 0)
|}.

(** Modelled from the spec: [DepthTraits<float>] of the missing
    depth_traits.hpp.  "Floating-point type is already meters (identity)";
    NaN is invalid, "finite values are valid regardless of sign or
    magnitude". *)
#[global] Instance float_traits : DepthTraits float := {|
  toMeters raw := f64_of_f32 raw;
  fromMeters meters := f32_of_f64 meters;
  valid raw := negb (is_nan raw)
|}.

(* ------------------------------------------------------------------ *)
(** ** convert<T> (depth_conversions.hpp) *)

Section Convert.

Context {T : Type} {sample : DepthSample T} {traits : DepthTraits T}.

Variable depth_msg : Image.
Variable model : PinholeCameraModel.
Variable range_max : double.
Variable use_quiet_nan : bool.
Variable cv_ptr : option Mat.

(** Use correct principal point from calibration *)
Definition center_x : float := f32_of_f64 (cx model).
Definition center_y : float := f32_of_f64 (cy model).

(** Combine unit conversion (if necessary) with scaling by focal length *)
Definition unit_scaling : double := toMeters (of_int 1).
Definition constant_x : float := f32_of_f64 (f64_div unit_scaling (fx model)).
Definition constant_y : float := f32_of_f64 (f64_div unit_scaling (fy model)).
Definition bad_point : float := quiet_NaN.

Definition row_step : Z := step depth_msg / sizeof.

(** [depth_row[u]], with [depth_row] an offset in samples. *)
Definition load_depth (depth_row u : Z) : res T :=
  bs ← read_bytes DepthOutOfBounds (data depth_msg)
                   ((depth_row + u) * sizeof) sizeof;
  Ok (decode bs).

(** The validity and range policy of the loop body.  [None] stands for
    the two paths that write [bad_point] and [continue]; [Some d] is the
    depth the rest of the body goes on with. *)
Definition clamp_depth (depth : T) : option T :=
  if negb (valid depth) then
    if f64_ne_zero range_max && negb use_quiet_nan then
      Some (fromMeters range_max)
    else None
  else if f64_ne_zero range_max then
    let depth_max := fromMeters range_max in
    if gt depth depth_max then
      if use_quiet_nan then None else Some depth_max
    else Some depth
  else Some depth.

(** The integer [rgb] at the end of the body, for the pixel (u, v). *)
Definition color_at (u v : Z) : res Z :=
  let rgb := 0 in
  match cv_ptr with
  | None => Ok rgb
  | Some cv =>
      if type cv =? CV_8UC1 then
        g ← mat_at cv 1 v u 0;
        Ok (Z.land rgb g)
      else if type cv =? CV_8UC3 then
        c ← mat_at cv 3 0 0 0;
        Ok c
      else if (type cv =? CV_8UC3) || (type cv =? CV_8UC4) then
        if (rows cv >? v) && (cols cv >? u) then
          c2 ← mat_at cv 4 v u 2;
          let rgb := Z.lor rgb (Z.shiftl c2 16) in
          c1 ← mat_at cv 4 v u 1;
          let rgb := Z.lor rgb (Z.shiftl c1 8) in
          c0 ← mat_at cv 4 v u 0;
          let rgb := Z.lor rgb c0 in
          Ok rgb
        else Ok rgb
      else Ok rgb
  end.

Definition bad_record : PointRecord :=
  {| pt_x := bad_point; pt_y := bad_point; pt_z := bad_point;
     pt_rgb := bad_point |}.

(** Fill in XYZ and RGB. *)
Definition fill (u v : Z) (depth : T) (rgb : Z) : PointRecord :=
  {| pt_x := f32_mul (f32_mul (f32_sub (f32_of_int u) center_x)
                              (to_float depth)) constant_x;
     pt_y := f32_mul (f32_mul (f32_sub (f32_of_int v) center_y)
                              (to_float depth)) constant_y;
     pt_z := f32_of_f64 (toMeters depth);
     pt_rgb := reinterpret_int_as_float rgb |}.

(** What one pass through the loop body assigns through the iterators.
    The assignments of a pass are gathered into one record, which the loop
    stores; a pass that cannot complete is a [Fault] whichever access fails
    first. *)
Definition point (u v : Z) (depth : T) : res PointRecord :=
  match clamp_depth depth with
  | None => Ok bad_record
  | Some depth =>
      rgb ← color_at u v;
      Ok (fill u v depth rgb)
  end.

(** The body from the load of [depth_row[u]] on. *)
Definition pixel (v depth_row u : Z) : res PointRecord :=
  depth ← load_depth depth_row u;
  point u v depth.

(** [for (int u = 0; u < width; u += 2, ++iter_x, ...)] *)
Fixpoint inner_loop (fuel : nat) (v depth_row u : Z) (it : iters) : res iters :=
  if u <? static_cast_int (width depth_msg) then
    match fuel with
    | O => Fault OutOfFuel
    | S fuel' =>
        depth ← load_depth depth_row u;
        p ← point u v depth;
        it' ← store it p;
        inner_loop fuel' v depth_row (u + 2) (advance it')
    end
  else Ok it.

(** [for (int v = 0; v < height; v += 2, depth_row += 2*row_step)] *)
Fixpoint outer_loop (fuel : nat) (v depth_row : Z) (it : iters) : res iters :=
  if v <? static_cast_int (height depth_msg) then
    match fuel with
    | O => Fault OutOfFuel
    | S fuel' =>
        it' ← inner_loop (Z.to_nat (static_cast_int (width depth_msg)))
                          v depth_row 0 it;
        outer_loop fuel' (v + 2) (depth_row + 2 * row_step) it'
    end
  else Ok it.

Definition convert (cloud_msg : PointCloud2) : res PointCloud2 :=
  it ← outer_loop (Z.to_nat (static_cast_int (height depth_msg))) 0 0
                   {| pos := 0; buf := pc_data cloud_msg |};
  Ok (set_data cloud_msg (buf it)).

End Convert.

(* ------------------------------------------------------------------ *)
(** ** The node (depthimage_to_pointcloud2_node.cpp) *)

(** sensor_msgs::msg::CameraInfo, reduced to the intrinsics that
    [PinholeCameraModel::fromCameraInfo] hands to [fx()], [fy()], [cx()]
    and [cy()]. *)
Record CameraInfo : Type := {
  info_fx : double;
  info_fy : double;
  info_cx : double;
  info_cy : double
}.

Definition fromCameraInfo (info : CameraInfo) : PinholeCameraModel :=
  {| fx := info_fx info; fy := info_fy info;
     cx := info_cx info; cy := info_cy info |}.

(** The members of [Depthimage2Pointcloud2], and what it has sent to
    [g_pub_point_cloud] so far (latest first). *)
Record Node : Type := {
  g_cam_info : option CameraInfo;
  node_cv_ptr : option Mat;
  node_range_max : double;
  node_use_quiet_nan : bool;
  colorful : bool;
  published : list PointCloud2
}.

Definition publish (st : Node) (cloud : PointCloud2) : Node :=
  {| g_cam_info := g_cam_info st; node_cv_ptr := node_cv_ptr st;
     node_range_max := node_range_max st;
     node_use_quiet_nan := node_use_quiet_nan st;
     colorful := colorful st;
     published := cloud :: published st |}.

Definition infoCb (st : Node) (info : CameraInfo) : Node :=
  {| g_cam_info := Some info; node_cv_ptr := node_cv_ptr st;
     node_range_max := node_range_max st;
     node_use_quiet_nan := node_use_quiet_nan st;
     colorful := colorful st;
     published := published st |}.

Definition TYPE_16UC1 : string := "16UC1".
Definition TYPE_32FC1 : string := "32FC1".

(** [setPointCloud2FieldsByString(2, "xyz", "rgb")] lays a point out on
    32 bytes and resizes the payload to [height * row_step] zero bytes,
    with [row_step = width * point_step] (32-bit unsigned products). *)
Definition point_step : Z := 32.

Definition zero_record : PointRecord :=
  {| pt_x := float_of_bits 0; pt_y := float_of_bits 0;
     pt_z := float_of_bits 0; pt_rgb := float_of_bits 0 |}.

Definition cloud_points (h w : Z) : Z :=
  uint32 (h * uint32 (w * point_step)) / point_step.

(** Bytes of a point outside its four float fields. *)
Definition padding_step : Z := point_step - 4 * 4.

(** The cloud message [depthCb] prepares for an image: lines 94 to 105. *)
Definition new_cloud (image : Image) : PointCloud2 :=
  let h := height image / 2 in
  let w := width image / 2 in
  {| pc_height := h; pc_width := w;
     pc_is_dense := false; pc_is_bigendian := false;
     pc_data := replicate (Z.to_nat (cloud_points h w)) zero_record;
     pc_padding := replicate (Z.to_nat (cloud_points h w * padding_step)) 0 |}.

Definition depthCb (st : Node) (image : Image) : res Node :=
  match g_cam_info st with
  | None =>
      (* we haven't gotten the camera info yet, so just drop until we do *)
      Ok st
  | Some info =>
      let cloud_msg := new_cloud image in
      let model := fromCameraInfo info in
      if String.eqb (encoding image) TYPE_16UC1 then
        cloud ← convert (T := Z) image model (node_range_max st)
                         (node_use_quiet_nan st) (node_cv_ptr st) cloud_msg;
        Ok (publish st cloud)
      else if String.eqb (encoding image) TYPE_32FC1 then
        cloud ← convert (T := float) image model (node_range_max st)
                         (node_use_quiet_nan st) (node_cv_ptr st) cloud_msg;
        Ok (publish st cloud)
      else
        (* unsupported encoding: warn and return *)
        Ok st
  end.

(* ------------------------------------------------------------------ *)
(** ** Vocabulary of the statements *)

(** Number of indices visited by [for (i = 0; i < n; i += 2)]. *)
Definition half_up (n : Z) : Z := (n + 1) / 2.

(** Position in the output of the sample taken at row [2 * i], column
    [2 * j] of a depth image of width [w]: row-major over the decimated
    grid. *)
Definition cell_index (w i j : Z) : nat := Z.to_nat (i * half_up w + j).

(** A depth image whose payload covers its declared extent, and whose
    extent leaves the [int] counters of the loops below [INT_MAX]. *)
Definition wf_depth {T : Type} {sample : DepthSample T} (img : Image) : bool :=
  (0 <=? height img) && (height img <? 2 ^ 31 - 1) &&
  (0 <=? width img) && (width img <? 2 ^ 31 - 1) &&
  (0 <? sizeof) && (width img <=? step img / sizeof) &&
  (height img * (step img / sizeof) * sizeof <=? Z.of_nat (length (data img))).

(** A color matrix that [color_at] can read at every pixel of the depth
    image without leaving its data. *)
Definition color_safe (cv_ptr : option Mat) (img : Image) : bool :=
  match cv_ptr with
  | None => true
  | Some cv =>
      if type cv =? CV_8UC1 then
        (0 <=? mat_step cv) &&
        (mat_step cv * Z.max 0 (height img - 1) + width img
           <=? Z.of_nat (length (mat_data cv)))
      else if type cv =? CV_8UC3 then
        1 <=? Z.of_nat (length (mat_data cv))
      else if type cv =? CV_8UC4 then
        (0 <=? mat_step cv) && (4 * cols cv <=? mat_step cv) &&
        (rows cv * mat_step cv <=? Z.of_nat (length (mat_data cv)))
      else true
  end.

(** The sample of the decimated grid at (i, j): what the loop computes for
    the pixel (u, v) = (2 j, 2 i). *)
Definition sample_point {T : Type} {sample : DepthSample T}
    {traits : DepthTraits T} (depth_msg : Image) (model : PinholeCameraModel)
    (range_max : double) (use_quiet_nan : bool) (cv_ptr : option Mat)
    (i j : Z) : res PointRecord :=
  pixel depth_msg model range_max use_quiet_nan cv_ptr
        (2 * i) (2 * i * row_step depth_msg) (2 * j).

(** The point at position [k] of a returned cloud. *)
Definition cell (r : res PointCloud2) (k : nat) : option PointRecord :=
  match r with
  | Ok cloud => pc_data cloud !! k
  | Fault _ => None
  end.

(** The clouds a callback has added to what was published before it. *)
Definition emitted (before : Node) (r : res Node) : res (list PointCloud2) :=
  after ← r;
  Ok (take (length (published after) - length (published before))
           (published after)).

(** All four fields hold the quiet NaN. *)
Definition nan_filled (p : PointRecord) : Prop :=
  pt_x p = quiet_NaN /\ pt_y p = quiet_NaN /\ pt_z p = quiet_NaN /\
  pt_rgb p = quiet_NaN /\ bits_of_float (pt_rgb p) = quiet_NaN_bits.

(* ------------------------------------------------------------------ *)
(** ** Concrete inputs *)

(** The [n] little-endian bytes of [w]. *)
Fixpoint le_split (n : nat) (w : Z) : list Z :=
  match n with
  | O => []
  | S n' => w mod 256 :: le_split n' (w / 256)
  end.

(** A tightly packed image whose samples are given as bit patterns, row
    by row. *)
Definition image_of (enc : string) (bytes_per_sample : nat) (h w : Z)
    (samples : list Z) : Image :=
  {| encoding := enc; height := h; width := w;
     step := w * Z.of_nat bytes_per_sample;
     data := mbind (M := list) (le_split bytes_per_sample) samples |}.

Definition f32_image (h w : Z) (samples : list Z) : Image :=
  image_of TYPE_32FC1 4 h w samples.

Definition u16_image (h w : Z) (samples : list Z) : Image :=
  image_of TYPE_16UC1 2 h w samples.

Definition one_f32 : Z := 0x3F800000.    (* 1.0f *)
Definition three_f32 : Z := 0x40400000.  (* 3.0f *)
Definition five_f32 : Z := 0x40A00000.   (* 5.0f *)

(** Focal lengths (1, 1), principal point (0, 0). *)
Definition unit_camera : PinholeCameraModel :=
  {| fx := f64_of_int 1; fy := f64_of_int 1;
     cx := f64_of_int 0; cy := f64_of_int 0 |}.

Definition blank_cloud (n : nat) : PointCloud2 :=
  {| pc_height := 1; pc_width := Z.of_nat n;
     pc_is_dense := false; pc_is_bigendian := false;
     pc_data := replicate n zero_record;
     pc_padding := replicate (n * 16) 0 |}.




Definition example_node : Node :=
  {| g_cam_info := Some {| info_fx := f64_of_int 1; info_fy := f64_of_int 1;
                           info_cx := f64_of_int 0; info_cy := f64_of_int 0 |};
     node_cv_ptr := None; node_range_max := f64_zero;
     node_use_quiet_nan := true; colorful := false; published := [] |}.

(** One-pixel color matrices: three channels, one channel, four channels. *)
Definition rgb_pixel : Mat :=
  {| rows := 1; cols := 1; type := CV_8UC3; mat_step := 3;
     mat_data := [10; 20; 30] |}.
Definition gray_pixel : Mat :=
  {| rows := 1; cols := 1; type := CV_8UC1; mat_step := 1;
     mat_data := [200] |}.
Definition bgra_pixel : Mat :=
  {| rows := 1; cols := 1; type := CV_8UC4; mat_step := 4;
     mat_data := [30; 20; 10; 255] |}.
Definition rgb_bits (p : PointRecord) : Z := bits_of_float (pt_rgb p).

(* ------------------------------------------------------------------ *)
(** ** The node's other callbacks and its executor *)

(** What the constructor leaves in the members: the three declared
    parameters (defaults 0.0, true and false), no camera info and no
    color image. *)
Definition make_node (range_max : double) (use_quiet_nan colorful : bool) : Node :=
  {| g_cam_info := None; node_cv_ptr := None;
     node_range_max := range_max; node_use_quiet_nan := use_quiet_nan;
     colorful := colorful; published := [] |}.

Definition default_node : Node := make_node f64_zero true false.

(** What arrives on the topics "image", "depth" and "depth_camera_info". *)
Inductive message : Type :=
| ImageMsg (msg : Image)
| DepthMsg (image : Image)
| InfoMsg (info : CameraInfo).

Section Callbacks.

(** [cv_bridge::toCvShare(msg, msg->encoding)], a function of cv_bridge:
    the matrix that shares the message's data, or [None] where it throws
    [cv_bridge::Exception]. *)
Variable toCvShare : Image -> option Mat.

Definition imageCb (st : Node) (msg : Image) : Node :=
  match toCvShare msg with
  | Some cv =>
      {| g_cam_info := g_cam_info st; node_cv_ptr := Some cv;
         node_range_max := node_range_max st;
         node_use_quiet_nan := node_use_quiet_nan st;
         colorful := colorful st;
         published := published st |}
  | None =>
      (* cv_bridge exception: log and return *)
      st
  end.

(** One callback of [rclcpp::spin]: the constructor subscribes to "image"
    only if [colorful] is set. *)
Definition deliver (st : Node) (m : message) : res Node :=
  match m with
  | ImageMsg msg => if colorful st then Ok (imageCb st msg) else Ok st
  | DepthMsg image => depthCb st image
  | InfoMsg info => Ok (infoCb st info)
  end.

(** The callbacks run one after the other, in the order of arrival. *)
Fixpoint spin (st : Node) (msgs : list message) : res Node :=
  match msgs with
  | [] => Ok st
  | m :: rest =>
      st' ← deliver st m;
      spin st' rest
  end.

End Callbacks.

Definition is_info (m : message) : bool :=
  match m with InfoMsg _ => true | _ => false end.

Definition is_depth (m : message) : bool :=
  match m with DepthMsg _ => true | _ => false end.

(** A depth image of a supported encoding whose payload covers its
    extent for the sample type of that encoding. *)
Definition wf_frame (image : Image) : bool :=
  if String.eqb (encoding image) TYPE_16UC1 then wf_depth (T := Z) image
  else if String.eqb (encoding image) TYPE_32FC1 then wf_depth (T := float) image
  else false.

(** The sample (i, j) of a frame, by the encoding of the frame. *)
Definition frame_sample (image : Image) (model : PinholeCameraModel)
    (range_max : double) (use_quiet_nan : bool) (cv_ptr : option Mat)
    (i j : Z) : res PointRecord :=
  if String.eqb (encoding image) TYPE_16UC1 then
    sample_point (T := Z) image model range_max use_quiet_nan cv_ptr i j
  else
    sample_point (T := float) image model range_max use_quiet_nan cv_ptr i j.

(* ------------------------------------------------------------------ *)
(** ** Basic facts *)

Lemma static_cast_int_small (x : Z) :
  0 <= x < 2 ^ 31 -> static_cast_int x = x.
Proof.
  intros Hx. unfold static_cast_int.
  rewrite Z.mod_small by lia.
  destruct (Z.ltb_spec x (2 ^ 31)); lia.
Qed.

Lemma is_ok_true {A : Type} (m : res A) :
  is_ok m = true -> exists a, m = Ok a.
Proof. destruct m; [eauto | discriminate]. Qed.

Lemma store_in_range (it : iters) (p : PointRecord) :
  (pos it < length (buf it))%nat ->
  store it p = Ok {| pos := pos it; buf := <[pos it := p]> (buf it) |}.
Proof.
  intros Hlt. unfold store.
  destruct (Nat.ltb_spec (pos it) (length (buf it))); [reflexivity | lia].
Qed.

Section Loops.

Context {T : Type} {sample : DepthSample T} {traits : DepthTraits T}.
Variable depth_msg : Image.
Variable model : PinholeCameraModel.
Variable range_max : double.
Variable use_quiet_nan : bool.
Variable cv_ptr : option Mat.

Local Abbreviation W := (static_cast_int (width depth_msg)).
Local Abbreviation H := (static_cast_int (height depth_msg)).
Local Abbreviation pixel' := (pixel depth_msg model range_max use_quiet_nan cv_ptr).
Local Abbreviation inner := (inner_loop depth_msg model range_max use_quiet_nan cv_ptr).
Local Abbreviation outer := (outer_loop depth_msg model range_max use_quiet_nan cv_ptr).

Lemma inner_loop_spec (v depth_row : Z) (n : nat) :
  forall (fuel : nat) (u : Z) (it : iters),
    (n <= fuel)%nat ->
    W <= u + 2 * Z.of_nat n < W + 2 ->
    (pos it + n <= length (buf it))%nat ->
    (forall k : nat, (k < n)%nat ->
       is_ok (pixel' v depth_row (u + 2 * Z.of_nat k)) = true) ->
    exists it',
      inner fuel v depth_row u it = Ok it' /\
      pos it' = (pos it + n)%nat /\
      length (buf it') = length (buf it) /\
      (forall (k : nat) (p : PointRecord), (k < n)%nat ->
         pixel' v depth_row (u + 2 * Z.of_nat k) = Ok p ->
         buf it' !! (pos it + k)%nat = Some p) /\
      (forall m : nat, (m < pos it \/ pos it + n <= m)%nat ->
         buf it' !! m = buf it !! m).
Proof.
  induction n as [|n IH]; intros fuel u it Hfuel Hw Hroom Hok.
  - exists it. destruct fuel; simpl;
      (destruct (Z.ltb_spec u W); [lia|]);
      repeat split; auto; intros; lia.
  - destruct fuel as [|fuel]; [lia|].
    simpl. destruct (Z.ltb_spec u W); [|lia].
    pose proof (Hok 0%nat ltac:(lia)) as H0.
    replace (u + 2 * Z.of_nat 0) with u in H0 by lia.
    apply is_ok_true in H0 as [p0 Hp0].
    unfold pixel in Hp0.
    destruct (load_depth depth_msg depth_row u) as [d|] eqn:Hd; [|discriminate].
    simpl in Hp0. simpl. rewrite Hp0. simpl.
    rewrite store_in_range by lia. simpl.
    destruct (IH fuel (u + 2) (advance {| pos := pos it; buf := <[pos it:=p0]> (buf it) |}))
      as (it' & Hrun & Hpos & Hlen & Hcells & Hrest).
    + lia.
    + lia.
    + simpl. rewrite length_insert. lia.
    + intros k Hk. specialize (Hok (S k) ltac:(lia)).
      replace (u + 2 + 2 * Z.of_nat k) with (u + 2 * Z.of_nat (S k)) by lia.
      exact Hok.
    + exists it'. simpl in *. rewrite length_insert in Hlen.
      split; [exact Hrun|]. split; [lia|]. split; [exact Hlen|]. split.
      * intros k p Hk Hp. destruct k as [|k].
        -- replace (u + 2 * Z.of_nat 0) with u in Hp by lia.
           unfold pixel in Hp. rewrite Hd in Hp. simpl in Hp.
           rewrite Hp0 in Hp. injection Hp as <-.
           rewrite Hrest by lia. rewrite Nat.add_0_r.
           apply list_lookup_insert_eq. lia.
        -- replace (pos it + S k)%nat with (S (pos it) + k)%nat by lia.
           apply Hcells; [lia|].
           replace (u + 2 + 2 * Z.of_nat k) with (u + 2 * Z.of_nat (S k)) by lia.
           exact Hp.
      * intros m Hm. rewrite Hrest by lia.
        apply list_lookup_insert_ne. lia.
Qed.

Local Abbreviation sample' := (sample_point depth_msg model range_max use_quiet_nan cv_ptr).
Local Abbreviation cw := (Z.to_nat (half_up W)).

Lemma outer_loop_spec (m : nat) :
  forall (fuel : nat) (i : Z) (it : iters),
    (m <= fuel)%nat ->
    0 <= W ->
    H <= 2 * i + 2 * Z.of_nat m < H + 2 ->
    (pos it + m * cw <= length (buf it))%nat ->
    (forall a b : nat, (a < m)%nat -> (b < cw)%nat ->
       is_ok (sample' (i + Z.of_nat a) (Z.of_nat b)) = true) ->
    exists it',
      outer fuel (2 * i) (2 * i * row_step depth_msg) it = Ok it' /\
      pos it' = (pos it + m * cw)%nat /\
      length (buf it') = length (buf it) /\
      (forall (a b : nat) (p : PointRecord), (a < m)%nat -> (b < cw)%nat ->
         sample' (i + Z.of_nat a) (Z.of_nat b) = Ok p ->
         buf it' !! (pos it + a * cw + b)%nat = Some p) /\
      (forall k : nat, (k < pos it \/ pos it + m * cw <= k)%nat ->
         buf it' !! k = buf it !! k).
Proof.
  induction m as [|m IH]; intros fuel i it Hfuel HW Hh Hroom Hok.
  - exists it. destruct fuel; simpl;
      (destruct (Z.ltb_spec (2 * i) H); [lia|]);
      repeat split; auto; intros; lia.
  - destruct fuel as [|fuel]; [lia|].
    simpl. destruct (Z.ltb_spec (2 * i) H); [|lia].
    assert (Hcw : W <= 2 * Z.of_nat cw < W + 2).
    { unfold half_up. rewrite Z2Nat.id by (apply Z.div_pos; lia).
      pose proof (Z.div_mod (W + 1) 2 ltac:(lia)).
      pose proof (Z.mod_pos_bound (W + 1) 2 ltac:(lia)). lia. }
    destruct (inner_loop_spec (2 * i) (2 * i * row_step depth_msg) cw
                (Z.to_nat W) 0 it) as (it1 & Hrun1 & Hpos1 & Hlen1 & Hcells1 & Hrest1).
    + lia.
    + lia.
    + lia.
    + intros k Hk. specialize (Hok 0%nat k ltac:(lia) Hk).
      unfold sample_point in Hok.
      replace (i + Z.of_nat 0) with i in Hok by lia. exact Hok.
    + rewrite Hrun1. simpl.
      replace (2 * i + 2) with (2 * (i + 1)) by lia.
      replace (2 * i * row_step depth_msg + 2 * row_step depth_msg)
        with (2 * (i + 1) * row_step depth_msg) by lia.
      destruct (IH fuel (i + 1) it1) as (it2 & Hrun2 & Hpos2 & Hlen2 & Hcells2 & Hrest2).
      * lia.
      * exact HW.
      * lia.
      * lia.
      * intros a b Ha Hb. specialize (Hok (S a) b ltac:(lia) Hb).
        replace (i + 1 + Z.of_nat a) with (i + Z.of_nat (S a)) by lia. exact Hok.
      * exists it2. split; [exact Hrun2|]. split; [lia|]. split; [lia|]. split.
        -- intros a b p Ha Hb Hp. destruct a as [|a].
           ++ rewrite Hrest2 by lia.
              replace (pos it + 0 * cw + b)%nat with (pos it + b)%nat by lia.
              apply Hcells1; [exact Hb|].
              unfold sample_point in Hp.
              replace (i + Z.of_nat 0) with i in Hp by lia. exact Hp.
           ++ replace (pos it + S a * cw + b)%nat
                with (pos it1 + a * cw + b)%nat by lia.
              apply Hcells2; [lia | exact Hb |].
              replace (i + 1 + Z.of_nat a) with (i + Z.of_nat (S a)) by lia.
              exact Hp.
        -- intros k Hk. rewrite Hrest2 by lia. apply Hrest1. lia.
Qed.

End Loops.

Section Termination.

Context {T : Type} {sample : DepthSample T} {traits : DepthTraits T}.
Variable depth_msg : Image.
Variable model : PinholeCameraModel.
Variable range_max : double.
Variable use_quiet_nan : bool.
Variable cv_ptr : option Mat.

Lemma inner_loop_fuel (v depth_row : Z) (fuel : nat) :
  forall (u : Z) (it : iters),
    static_cast_int (width depth_msg) <= u + 2 * Z.of_nat fuel ->
    inner_loop depth_msg model range_max use_quiet_nan cv_ptr
               fuel v depth_row u it <> Fault OutOfFuel.
Proof.
  induction fuel as [|fuel IH]; intros u it Hfuel; simpl.
  - destruct (Z.ltb_spec u (static_cast_int (width depth_msg))); [lia | discriminate].
  - destruct (Z.ltb_spec u (static_cast_int (width depth_msg))); [|discriminate].
    unfold load_depth, read_bytes.
    destruct (_ && _); [|discriminate]. simpl.
    unfold point. destruct (clamp_depth _ _ _) as [d|]; simpl.
    + unfold color_at, mat_at, read_bytes.
      destruct cv_ptr as [cv|]; simpl;
        repeat match goal with
               | |- context [if ?b then _ else _] => destruct b; simpl
               end;
        try discriminate;
        unfold store;
        (destruct (_ <? _)%nat; simpl; [apply IH; lia | discriminate]).
    + unfold store.
      destruct (_ <? _)%nat; simpl; [apply IH; lia | discriminate].
Qed.

Lemma outer_loop_fuel (fuel : nat) :
  forall (v depth_row : Z) (it : iters),
    static_cast_int (height depth_msg) <= v + 2 * Z.of_nat fuel ->
    outer_loop depth_msg model range_max use_quiet_nan cv_ptr
               fuel v depth_row it <> Fault OutOfFuel.
Proof.
  induction fuel as [|fuel IH]; intros v depth_row it Hfuel; simpl.
  - destruct (Z.ltb_spec v (static_cast_int (height depth_msg))); [lia | discriminate].
  - destruct (Z.ltb_spec v (static_cast_int (height depth_msg))); [|discriminate].
    pose proof (inner_loop_fuel v depth_row
                  (Z.to_nat (static_cast_int (width depth_msg))) 0 it
                  ltac:(lia)) as Hinner.
    destruct (inner_loop _ _ _ _ _ _ _ _ 0 it) as [it'|f]; simpl.
    + apply IH; lia.
    + congruence.
Qed.

(** The iteration bounds handed to the two loops always suffice: the
    call ends, in a cloud or in an access out of range. *)
Lemma convert_fuel (cloud_msg : PointCloud2) :
  convert depth_msg model range_max use_quiet_nan cv_ptr cloud_msg
    <> Fault OutOfFuel.
Proof.
  unfold convert.
  pose proof (outer_loop_fuel (Z.to_nat (static_cast_int (height depth_msg)))
                0 0 {| pos := 0; buf := pc_data cloud_msg |} ltac:(lia))
    as Houter.
  destruct (outer_loop _ _ _ _ _ _ 0 0 _) as [it|f]; simpl;
    [discriminate | congruence].
Qed.

End Termination.

Lemma read_bytes_in_range (oob : fault) (bytes : list Z) (off n : Z) :
  0 <= off -> off + n <= Z.of_nat (length bytes) ->
  read_bytes oob bytes off n =
    Ok (take (Z.to_nat n) (drop (Z.to_nat off) bytes)).
Proof.
  intros H0 H1. unfold read_bytes.
  destruct (Z.leb_spec 0 off); [|lia].
  destruct (Z.leb_spec (off + n) (Z.of_nat (length bytes))); [|lia].
  reflexivity.
Qed.

Lemma mat_at_in_range (m : Mat) (esz i j k : Z) :
  0 <= mat_step m * i + esz * j + k < Z.of_nat (length (mat_data m)) ->
  exists b, mat_at m esz i j k = Ok b.
Proof.
  intros Hr. unfold mat_at.
  rewrite read_bytes_in_range by lia. simpl. eauto.
Qed.

Section Safety.

Context {T : Type} {sample : DepthSample T} {traits : DepthTraits T}.
Variable depth_msg : Image.
Variable model : PinholeCameraModel.
Variable range_max : double.
Variable use_quiet_nan : bool.
Variable cv_ptr : option Mat.

Lemma wf_depth_facts :
  wf_depth depth_msg = true ->
  0 <= height depth_msg < 2 ^ 31 /\ 0 <= width depth_msg < 2 ^ 31 /\
  0 < sizeof /\ width depth_msg <= row_step depth_msg /\
  height depth_msg * row_step depth_msg * sizeof
    <= Z.of_nat (length (data depth_msg)).
Proof.
  unfold wf_depth, row_step. intros Hwf.
  repeat (apply andb_prop in Hwf as [Hwf ?]).
  repeat match goal with
         | H : (_ <=? _) = true |- _ => apply Z.leb_le in H
         | H : (_ <? _) = true |- _ => apply Z.ltb_lt in H
         end.
  lia.
Qed.

Lemma load_depth_in_range (i j : Z) :
  wf_depth depth_msg = true ->
  0 <= i -> 2 * i < height depth_msg ->
  0 <= j -> 2 * j < width depth_msg ->
  exists d, load_depth depth_msg (2 * i * row_step depth_msg) (2 * j) = Ok d.
Proof.
  intros Hwf Hi0 Hi Hj0 Hj.
  destruct (wf_depth_facts Hwf) as (Hh & Hw & Hsz & Hrs & Hlen).
  assert (Hrow : 0 <= 2 * i * row_step depth_msg) by nia.
  assert (Hnext : 2 * i * row_step depth_msg + row_step depth_msg
                  <= height depth_msg * row_step depth_msg) by nia.
  assert (Hend : (2 * i * row_step depth_msg + 2 * j + 1) * sizeof
                 <= height depth_msg * row_step depth_msg * sizeof)
    by (apply Z.mul_le_mono_nonneg_r; lia).
  unfold load_depth. rewrite read_bytes_in_range; [simpl; eauto | |].
  - apply Z.mul_nonneg_nonneg; lia.
  - lia.
Qed.

Lemma color_at_in_range (u v : Z) :
  color_safe cv_ptr depth_msg = true ->
  0 <= u < width depth_msg -> 0 <= v < height depth_msg ->
  exists rgb, color_at cv_ptr u v = Ok rgb.
Proof.
  unfold color_safe, color_at. intros Hsafe Hu Hv.
  destruct cv_ptr as [cv|]; [|eauto].
  destruct (type cv =? CV_8UC1).
  - apply andb_prop in Hsafe as [Hs Hl].
    apply Z.leb_le in Hs, Hl.
    rewrite Z.max_r in Hl by lia.
    assert (mat_step cv * v <= mat_step cv * (height depth_msg - 1)) by nia.
    destruct (mat_at_in_range cv 1 v u 0) as [g Hg]; [nia|].
    rewrite Hg. simpl. eauto.
  - destruct (type cv =? CV_8UC3).
    + apply Z.leb_le in Hsafe.
      destruct (mat_at_in_range cv 3 0 0 0) as [c Hc]; [lia|].
      rewrite Hc. simpl. eauto.
    + simpl. destruct (type cv =? CV_8UC4); [|eauto].
      apply andb_prop in Hsafe as [Hsafe Hl].
      apply andb_prop in Hsafe as [Hs Hc].
      apply Z.leb_le in Hs, Hl, Hc.
      destruct (rows cv >? v) eqn:Hr; [|simpl; eauto].
      destruct (cols cv >? u) eqn:Hcu; [|simpl; eauto].
      apply Z.gtb_lt in Hr, Hcu. simpl.
      assert (mat_step cv * v + mat_step cv <= rows cv * mat_step cv) by nia.
      destruct (mat_at_in_range cv 4 v u 2) as [c2 Hc2]; [nia|].
      destruct (mat_at_in_range cv 4 v u 1) as [c1 Hc1]; [nia|].
      destruct (mat_at_in_range cv 4 v u 0) as [c0 Hc0]; [nia|].
      rewrite Hc2. simpl. rewrite Hc1. simpl. rewrite Hc0. simpl. eauto.
Qed.

Lemma sample_point_ok (i j : Z) :
  wf_depth depth_msg = true ->
  color_safe cv_ptr depth_msg = true ->
  0 <= i -> 2 * i < height depth_msg ->
  0 <= j -> 2 * j < width depth_msg ->
  is_ok (sample_point depth_msg model range_max use_quiet_nan cv_ptr i j) = true.
Proof.
  intros Hwf Hsafe Hi0 Hi Hj0 Hj.
  destruct (load_depth_in_range i j Hwf Hi0 Hi Hj0 Hj) as [d Hd].
  destruct (color_at_in_range (2 * j) (2 * i) Hsafe) as [rgb Hrgb]; [lia | lia |].
  unfold sample_point, pixel. rewrite Hd. simpl.
  unfold point. destruct (clamp_depth range_max use_quiet_nan d); [|reflexivity].
  rewrite Hrgb. reflexivity.
Qed.

End Safety.

Lemma half_up_bounds (n : Z) : n <= 2 * half_up n < n + 2.
Proof.
  unfold half_up.
  pose proof (Z.div_mod (n + 1) 2 ltac:(lia)).
  pose proof (Z.mod_pos_bound (n + 1) 2 ltac:(lia)). lia.
Qed.

Section ConvertCells.

Context {T : Type} {sample : DepthSample T} {traits : DepthTraits T}.
Variable depth_msg : Image.
Variable model : PinholeCameraModel.
Variable range_max : double.
Variable use_quiet_nan : bool.
Variable cv_ptr : option Mat.

Local Abbreviation sample' := (sample_point depth_msg model range_max use_quiet_nan cv_ptr).
Local Abbreviation convert' := (convert depth_msg model range_max use_quiet_nan cv_ptr).

(** With room in the cloud for every sample and every sample readable,
    the call returns; it leaves the sample (i, j) at [cell_index], in
    row-major order, and touches nothing else. *)
Lemma convert_cells (cloud_msg : PointCloud2) :
  wf_depth depth_msg = true ->
  half_up (height depth_msg) * half_up (width depth_msg)
    <= Z.of_nat (length (pc_data cloud_msg)) ->
  (forall i j : Z, 0 <= i -> 2 * i < height depth_msg ->
                   0 <= j -> 2 * j < width depth_msg ->
                   is_ok (sample' i j) = true) ->
  exists cloud',
    convert' cloud_msg = Ok cloud' /\
    cloud' = set_data cloud_msg (pc_data cloud') /\
    length (pc_data cloud') = length (pc_data cloud_msg) /\
    (forall (i j : Z) (p : PointRecord),
       0 <= i -> 2 * i < height depth_msg ->
       0 <= j -> 2 * j < width depth_msg ->
       sample' i j = Ok p ->
       pc_data cloud' !! cell_index (width depth_msg) i j = Some p) /\
    (forall k : nat,
       half_up (height depth_msg) * half_up (width depth_msg) <= Z.of_nat k ->
       pc_data cloud' !! k = pc_data cloud_msg !! k).
Proof.
  intros Hwf Hroom Hok.
  destruct (wf_depth_facts depth_msg Hwf) as (Hh & Hw & _).
  pose proof (half_up_bounds (height depth_msg)) as Hbh.
  pose proof (half_up_bounds (width depth_msg)) as Hbw.
  unfold convert.
  destruct (outer_loop_spec depth_msg model range_max use_quiet_nan cv_ptr
              (Z.to_nat (half_up (height depth_msg)))
              (Z.to_nat (static_cast_int (height depth_msg))) 0
              {| pos := 0; buf := pc_data cloud_msg |})
    as (it' & Hrun & Hpos & Hlen & Hcells & Hrest);
    rewrite ?static_cast_int_small by lia.
  - lia.
  - lia.
  - lia.
  - simpl. nia.
  - intros a b Ha Hb. apply Hok; lia.
  - rewrite static_cast_int_small in Hrun, Hcells, Hrest by lia.
    change (2 * 0) with 0 in Hrun.
    change (0 * row_step depth_msg) with 0 in Hrun.
    rewrite Hrun. simpl in *.
    exists (set_data cloud_msg (buf it')). simpl.
    split; [reflexivity|]. split; [reflexivity|]. split; [exact Hlen|]. split.
    + intros i j p Hi0 Hi Hj0 Hj Hp.
      specialize (Hcells (Z.to_nat i) (Z.to_nat j) p ltac:(lia) ltac:(lia)).
      rewrite !Z2Nat.id in Hcells by lia.
      specialize (Hcells Hp).
      unfold cell_index.
      replace (Z.to_nat (i * half_up (width depth_msg) + j))
        with (Z.to_nat i * Z.to_nat (half_up (width depth_msg)) + Z.to_nat j)%nat
        by nia.
      exact Hcells.
    + intros k Hk. apply Hrest. right. nia.
Qed.

(** The same for any color matrix that can be read safely. *)
Lemma convert_safe (cloud_msg : PointCloud2) :
  wf_depth depth_msg = true ->
  color_safe cv_ptr depth_msg = true ->
  half_up (height depth_msg) * half_up (width depth_msg)
    <= Z.of_nat (length (pc_data cloud_msg)) ->
  exists cloud',
    convert' cloud_msg = Ok cloud' /\
    length (pc_data cloud') = length (pc_data cloud_msg) /\
    (forall i j : Z,
       0 <= i -> 2 * i < height depth_msg ->
       0 <= j -> 2 * j < width depth_msg ->
       exists p, sample' i j = Ok p /\
                 pc_data cloud' !! cell_index (width depth_msg) i j = Some p) /\
    (forall k : nat,
       half_up (height depth_msg) * half_up (width depth_msg) <= Z.of_nat k ->
       pc_data cloud' !! k = pc_data cloud_msg !! k).
Proof.
  intros Hwf Hsafe Hroom.
  destruct (convert_cells cloud_msg Hwf Hroom)
    as (cloud' & Hrun & _ & Hlen & Hcells & Hrest).
  { intros i j ? ? ? ?. apply sample_point_ok; assumption. }
  exists cloud'. split; [exact Hrun|]. split; [exact Hlen|]. split; [|exact Hrest].
  intros i j Hi0 Hi Hj0 Hj.
  destruct (is_ok_true _ (sample_point_ok depth_msg model range_max
              use_quiet_nan cv_ptr i j Hwf Hsafe Hi0 Hi Hj0 Hj)) as [p Hp].
  exists p. split; [exact Hp|]. apply Hcells; assumption.
Qed.

End ConvertCells.

(** Reading back the bits of a float made from bits gives the bits, for
    every pattern that is not a NaN. *)
Lemma bits_of_float_of_bits (w : Z) :
  0 <= w < 2 ^ 32 ->
  (w / 2 ^ 23) mod 2 ^ 8 <> 255 \/ w mod 2 ^ 23 = 0 ->
  bits_of_float (float_of_bits w) = w.
Proof.
  intros Hw Hnan.
  pose proof (Z.div_mod w (2 ^ 23) ltac:(lia)) as Hsplit.
  pose proof (Z.mod_pos_bound w (2 ^ 23) ltac:(lia)) as Hm.
  pose proof (Z.div_mod (w / 2 ^ 23) (2 ^ 8) ltac:(lia)) as Hsplit2.
  pose proof (Z.mod_pos_bound (w / 2 ^ 23) (2 ^ 8) ltac:(lia)) as He.
  assert (Hs : w / 2 ^ 31 = w / 2 ^ 23 / 2 ^ 8)
    by (rewrite Z.div_div by lia; reflexivity).
  assert (Hs01 : 0 <= w / 2 ^ 31 < 2)
    by (split; [apply Z.div_pos; lia | apply Z.div_lt_upper_bound; lia]).
  unfold float_of_bits.
  set (e := (w / 2 ^ 23) mod 2 ^ 8) in *.
  set (m := w mod 2 ^ 23) in *.
  set (q := w / 2 ^ 31) in *.
  assert (Hw' : w = q * 2 ^ 31 + e * 2 ^ 23 + m) by lia.
  assert (Hsign : (if negb (q =? 0) then 2 ^ 31 else 0) = q * 2 ^ 31).
  { destruct (Z.eqb_spec q 0); simpl; lia. }
  destruct (Z.eqb_spec e 0) as [He0|He0].
  - destruct m as [|p|p] eqn:Hmp; simpl bits_of_float; unfold join_bits.
    + lia.
    + destruct (Z.leb_spec (2 ^ 23) (Z.pos p)); unfold join_bits; lia.
    + lia.
  - destruct (Z.eqb_spec e 255) as [He255|He255].
    + destruct Hnan as [Hne|Hm0]; [contradiction|].
      fold m in Hm0. rewrite Hm0. simpl bits_of_float. unfold join_bits. lia.
    + destruct (m + 2 ^ 23) as [|p|p] eqn:Hmp; [lia | | lia].
      simpl bits_of_float.
      destruct (Z.leb_spec (2 ^ 23) (Z.pos p)); unfold join_bits; lia.
Qed.

(** The float written for a 24-bit packed color carries exactly its bits. *)
Lemma packed_color_bits (rgb : Z) :
  0 <= rgb < 2 ^ 24 ->
  bits_of_float (reinterpret_int_as_float rgb) = rgb.
Proof.
  intros Hr. unfold reinterpret_int_as_float.
  rewrite Z.mod_small by lia.
  apply bits_of_float_of_bits; [lia|].
  left. rewrite Z.mod_small.
  - assert (rgb / 2 ^ 23 < 2) by (apply Z.div_lt_upper_bound; lia). lia.
  - split; [apply Z.div_pos; lia | apply Z.div_lt_upper_bound; lia].
Qed.

Lemma bad_record_nan_filled : nan_filled bad_record.
Proof. repeat split. Qed.

Section Cells.

Context {T : Type} {sample : DepthSample T} {traits : DepthTraits T}.
Variable depth_msg : Image.
Variable model : PinholeCameraModel.
Variable range_max : double.
Variable use_quiet_nan : bool.
Variable cv_ptr : option Mat.
Variable cloud_msg : PointCloud2.

Local Abbreviation convert' := (convert depth_msg model range_max use_quiet_nan cv_ptr).
Local Abbreviation point' := (point model range_max use_quiet_nan cv_ptr).
Local Abbreviation clamp' := (clamp_depth range_max use_quiet_nan).

(** The cell of a sample holds what the loop body computes from the
    depth loaded for it. *)
Lemma convert_cell_point (i j : Z) (d : T) :
  wf_depth depth_msg = true ->
  color_safe cv_ptr depth_msg = true ->
  half_up (height depth_msg) * half_up (width depth_msg)
    <= Z.of_nat (length (pc_data cloud_msg)) ->
  0 <= i -> 2 * i < height depth_msg ->
  0 <= j -> 2 * j < width depth_msg ->
  load_depth depth_msg (2 * i * row_step depth_msg) (2 * j) = Ok d ->
  exists p,
    point' (2 * j) (2 * i) d = Ok p /\
    cell (convert' cloud_msg) (cell_index (width depth_msg) i j) = Some p.
Proof.
  intros Hwf Hsafe Hroom Hi0 Hi Hj0 Hj Hd.
  destruct (convert_safe depth_msg model range_max use_quiet_nan cv_ptr
              cloud_msg Hwf Hsafe Hroom) as (cloud' & Hrun & _ & Hcells & _).
  destruct (Hcells i j Hi0 Hi Hj0 Hj) as (p & Hp & Hlook).
  exists p. rewrite Hrun. simpl. split; [|exact Hlook].
  unfold sample_point, pixel in Hp. rewrite Hd in Hp. exact Hp.
Qed.

(** A sample the policy rejects is written as the NaN-filled point. *)
Lemma point_rejected (u v : Z) (d : T) (p : PointRecord) :
  clamp' d = None -> point' u v d = Ok p -> nan_filled p.
Proof.
  unfold point. intros -> Hp. injection Hp as <-.
  apply bad_record_nan_filled.
Qed.

(** A sample the policy lets through is filled from the depth it chose. *)
Lemma point_accepted (u v : Z) (d d' : T) (p : PointRecord) :
  clamp' d = Some d' -> point' u v d = Ok p ->
  exists rgb, color_at cv_ptr u v = Ok rgb /\ p = fill model u v d' rgb.
Proof.
  unfold point. intros -> Hp.
  destruct (color_at cv_ptr u v) as [rgb|]; [|discriminate].
  injection Hp as <-. eauto.
Qed.

End Cells.

Lemma lor_shiftl_low (a b n : Z) :
  0 <= n -> 0 <= b < 2 ^ n -> Z.lor (Z.shiftl a n) b = a * 2 ^ n + b.
Proof.
  intros Hn Hb.
  rewrite <- Z.shiftl_mul_pow2 by lia.
  rewrite <- Z.lxor_lor, <- Z.add_nocarry_lxor; try reflexivity;
    apply Z.bits_inj'; intros k Hk;
    rewrite Z.land_spec, Z.bits_0;
    destruct (Z.lt_ge_cases k n) as [Hlt|Hge].
  - rewrite Z.shiftl_spec_low by lia. reflexivity.
  - destruct (Z.eq_dec b 0) as [->|Hb0].
    + rewrite Z.bits_0. apply andb_false_r.
    + rewrite (Z.bits_above_log2 b k); [apply andb_false_r | lia |].
      apply Z.log2_lt_pow2; [lia|].
      apply Z.lt_le_trans with (2 ^ n); [lia|].
      apply Z.pow_le_mono_r; lia.
  - rewrite Z.shiftl_spec_low by lia. reflexivity.
  - destruct (Z.eq_dec b 0) as [->|Hb0].
    + rewrite Z.bits_0. apply andb_false_r.
    + rewrite (Z.bits_above_log2 b k); [apply andb_false_r | lia |].
      apply Z.log2_lt_pow2; [lia|].
      apply Z.lt_le_trans with (2 ^ n); [lia|].
      apply Z.pow_le_mono_r; lia.
Qed.

Lemma pack_channels_value (c2 c1 c0 : Z) :
  0 <= c2 < 256 -> 0 <= c1 < 256 -> 0 <= c0 < 256 ->
  Z.lor (Z.lor (Z.lor 0 (Z.shiftl c2 16)) (Z.shiftl c1 8)) c0
    = c2 * 65536 + c1 * 256 + c0.
Proof.
  intros H2 H1 H0. rewrite Z.lor_0_l.
  rewrite (lor_shiftl_low c2 (Z.shiftl c1 8) 16)
    by (rewrite ?Z.shiftl_mul_pow2 by lia; lia).
  rewrite Z.shiftl_mul_pow2 by lia.
  assert (Hhigh : c2 * 2 ^ 16 + c1 * 2 ^ 8 = Z.shiftl (c2 * 256 + c1) 8).
  { rewrite Z.shiftl_mul_pow2 by lia.
    change (2 ^ 16) with 65536. change (2 ^ 8) with 256. lia. }
  rewrite Hhigh, lor_shiftl_low by (change (2 ^ 8) with 256; lia).
  change (2 ^ 8) with 256. lia.
Qed.

(** The three [|=] of the four-channel branch place byte 2 in bits 16 to
    23, byte 1 in bits 8 to 15 and byte 0 in bits 0 to 7, and the float
    written for the result carries exactly these bits. *)
Lemma pack_channels (c2 c1 c0 : Z) :
  0 <= c2 < 256 -> 0 <= c1 < 256 -> 0 <= c0 < 256 ->
  let rgb := Z.lor (Z.lor (Z.lor 0 (Z.shiftl c2 16)) (Z.shiftl c1 8)) c0 in
  (rgb / 2 ^ 16) mod 2 ^ 8 = c2 /\ (rgb / 2 ^ 8) mod 2 ^ 8 = c1 /\
  rgb mod 2 ^ 8 = c0 /\
  bits_of_float (reinterpret_int_as_float rgb) = rgb.
Proof.
  intros H2 H1 H0. cbv zeta.
  rewrite pack_channels_value by assumption.
  change (2 ^ 16) with 65536. change (2 ^ 8) with 256.
  repeat split.
  - replace (c2 * 65536 + c1 * 256 + c0) with ((c1 * 256 + c0) + c2 * 65536) by lia.
    rewrite Z.div_add by lia.
    rewrite (Z.div_small (c1 * 256 + c0)) by lia.
    apply Z.mod_small. lia.
  - replace (c2 * 65536 + c1 * 256 + c0) with (c0 + (c2 * 256 + c1) * 256) by lia.
    rewrite Z.div_add by lia. rewrite (Z.div_small c0) by lia.
    rewrite Z.add_0_l, Z.add_comm, Z.mod_add by lia.
    apply Z.mod_small. lia.
  - replace (c2 * 65536 + c1 * 256 + c0) with (c0 + (c2 * 256 + c1) * 256) by lia.
    rewrite Z.mod_add by lia. apply Z.mod_small. lia.
  - apply packed_color_bits. change (2 ^ 24) with 16777216. lia.
Qed.

(** In a four-channel matrix a pixel inside the matrix is packed from its
    bytes 2, 1 and 0; a pixel outside it contributes 0. *)
Lemma color_at_8UC4 (cv : Mat) (u v : Z) :
  type cv = CV_8UC4 ->
  color_at (Some cv) u v =
    if (rows cv >? v) && (cols cv >? u) then
      c2 ← mat_at cv 4 v u 2;
      c1 ← mat_at cv 4 v u 1;
      c0 ← mat_at cv 4 v u 0;
      Ok (Z.lor (Z.lor (Z.lor 0 (Z.shiftl c2 16)) (Z.shiftl c1 8)) c0)
    else Ok 0.
Proof. intros Htype. unfold color_at. rewrite Htype. reflexivity. Qed.

(** In a three-channel matrix the first [CV_8UC3] test is the one taken:
    every pixel gets byte 0 of the pixel at the origin. *)
Lemma color_at_8UC3 (cv : Mat) (u v : Z) :
  type cv = CV_8UC3 ->
  color_at (Some cv) u v = mat_at cv 3 0 0 0.
Proof.
  intros Htype. unfold color_at. rewrite Htype. simpl.
  destruct (mat_at cv 3 0 0 0); reflexivity.
Qed.

(** In a single-channel matrix the pixel is read without a test of its
    coordinates. *)
Lemma color_at_8UC1 (cv : Mat) (u v : Z) :
  type cv = CV_8UC1 ->
  color_at (Some cv) u v = (g ← mat_at cv 1 v u 0; Ok (Z.land 0 g)).
Proof. intros Htype. unfold color_at. rewrite Htype. reflexivity. Qed.

Lemma new_cloud_length (image : Image) :
  0 <= height image -> 0 <= width image ->
  (height image / 2) * (width image / 2) * point_step < 2 ^ 32 ->
  Z.of_nat (length (pc_data (new_cloud image)))
    = (height image / 2) * (width image / 2).
Proof.
  intros Hh Hw Hsmall. unfold new_cloud, cloud_points, uint32, point_step in *.
  simpl. rewrite length_replicate.
  assert (0 <= height image / 2) by (apply Z.div_pos; lia).
  assert (0 <= width image / 2) by (apply Z.div_pos; lia).
  destruct (Z.eq_dec (height image / 2) 0) as [Hz|Hnz].
  - rewrite Hz. reflexivity.
  - assert (width image / 2 * 32 < 2 ^ 32) by nia.
    rewrite (Z.mod_small (width image / 2 * 32)) by lia.
    rewrite Z.mod_small by nia.
    rewrite Z2Nat.id by (apply Z.div_pos; nia).
    replace (height image / 2 * (width image / 2 * 32))
      with (height image / 2 * (width image / 2) * 32) by lia.
    apply Z.div_mul. lia.
Qed.

(** For an image of even height and width the cloud [depthCb] prepares
    has one cell per sample. *)
Lemma new_cloud_fits_even (image : Image) :
  0 <= height image -> 0 <= width image ->
  height image mod 2 = 0 -> width image mod 2 = 0 ->
  (height image / 2) * (width image / 2) * point_step < 2 ^ 32 ->
  Z.of_nat (length (pc_data (new_cloud image)))
    = half_up (height image) * half_up (width image).
Proof.
  intros Hh Hw Heh Hew Hsmall.
  rewrite new_cloud_length by assumption.
  unfold half_up.
  pose proof (Z.div_mod (height image) 2 ltac:(lia)).
  pose proof (Z.div_mod (width image) 2 ltac:(lia)).
  pose proof (Z.div_mod (height image + 1) 2 ltac:(lia)).
  pose proof (Z.div_mod (width image + 1) 2 ltac:(lia)).
  pose proof (Z.mod_pos_bound (height image + 1) 2 ltac:(lia)).
  pose proof (Z.mod_pos_bound (width image + 1) 2 ltac:(lia)).
  f_equal; lia.
Qed.

Section EvenImages.

Context {T : Type} {sample : DepthSample T} {traits : DepthTraits T}.
Variable image : Image.
Variable model : PinholeCameraModel.
Variable range_max : double.
Variable use_quiet_nan : bool.
Variable cv_ptr : option Mat.

(** On an image of even height and width the cloud [depthCb] prepares is
    filled exactly: one point per sample, in row-major order. *)
Lemma convert_new_cloud_even :
  wf_depth image = true ->
  color_safe cv_ptr image = true ->
  height image mod 2 = 0 -> width image mod 2 = 0 ->
  (height image / 2) * (width image / 2) * point_step < 2 ^ 32 ->
  exists cloud,
    convert image model range_max use_quiet_nan cv_ptr (new_cloud image)
      = Ok cloud /\
    Z.of_nat (length (pc_data cloud))
      = half_up (height image) * half_up (width image) /\
    (forall i j : Z,
       0 <= i -> 2 * i < height image ->
       0 <= j -> 2 * j < width image ->
       exists p,
         sample_point image model range_max use_quiet_nan cv_ptr i j = Ok p /\
         pc_data cloud !! cell_index (width image) i j = Some p).
Proof.
  intros Hwf Hsafe Heh Hew Hsmall.
  destruct (wf_depth_facts image Hwf) as (Hh & Hw & _).
  pose proof (new_cloud_fits_even image ltac:(lia) ltac:(lia) Heh Hew Hsmall)
    as Hfit.
  destruct (convert_safe image model range_max use_quiet_nan cv_ptr
              (new_cloud image) Hwf Hsafe ltac:(lia))
    as (cloud & Hrun & Hlen & Hcells & _).
  exists cloud. split; [exact Hrun|]. split; [|exact Hcells].
  rewrite Hlen. exact Hfit.
Qed.

End EvenImages.



(* ------------------------------------------------------------------ *)
(** ** The properties of the specification *)

(** C1: the loop samples ceil(H/2) * ceil(W/2) pixels, but the cloud
    [depthCb] prepares holds (H/2) * (W/2) points, rounded down.  For a
    1 x 1 image the cloud is empty and the one sample is written past its
    end; for a 3 x 3 image it holds one point where four are written.
    With room for the sample the same call returns. *)
Theorem odd_image_overruns_cloud :
  let image := u16_image 1 1 [1000] in
  let image3 := f32_image 3 3 (replicate 9 one_f32) in
  half_up (height image) * half_up (width image) = 1 /\
  length (pc_data (new_cloud image)) = 0%nat /\
  convert (T := Z) image unit_camera f64_zero true None (new_cloud image)
    = Fault CloudOutOfBounds /\
  depthCb example_node image = Fault CloudOutOfBounds /\
  is_ok (convert (T := Z) image unit_camera f64_zero true None (blank_cloud 1))
    = true /\
  half_up (height image3) * half_up (width image3) = 4 /\
  length (pc_data (new_cloud image3)) = 1%nat /\
  depthCb example_node image3 = Fault CloudOutOfBounds.
Proof. vm_compute. repeat split. Qed.


(** C2: for a three-channel color image the first [CV_8UC3] test is the
    one taken, so the pixel (R=10, G=20, B=30) is not packed: the rgb
    field carries 10, byte 0 of the pixel at the origin, where the packed
    integer would be (10<<16)|(20<<8)|30 = 660510. *)
Theorem three_channel_color_not_packed :
  let depth := f32_image 2 2 (replicate 4 one_f32) in
  let out := cell (convert (T := float) depth unit_camera f64_zero true
                     (Some rgb_pixel) (blank_cloud 1)) 0 in
  rgb_bits <$> out = Some 10 /\
  Z.lor (Z.lor (Z.shiftl 10 16) (Z.shiftl 20 8)) 30 = 660510.
Proof. vm_compute. repeat split. Qed.


(** C3: a valid sample whose depth exceeds [fromMeters(range_max)], with
    [range_max != 0], is written as the NaN-filled point when
    [use_quiet_nan] is set, and is otherwise back-projected from the depth
    [fromMeters(range_max)]; so a sample of 3.0 meters with range_max 2.0
    comes out NaN-filled under [use_quiet_nan] and with z = 2.0 meters
    without it, in both encodings. *)
Theorem range_exceeded_policy :
  (forall (T : Type) (sample : DepthSample T) (traits : DepthTraits T)
      (depth_msg : Image) (model : PinholeCameraModel) (range_max : double)
      (use_quiet_nan : bool) (cv_ptr : option Mat) (cloud_msg : PointCloud2)
      (i j : Z) (d : T),
      wf_depth depth_msg = true ->
      color_safe cv_ptr depth_msg = true ->
      half_up (height depth_msg) * half_up (width depth_msg)
        <= Z.of_nat (length (pc_data cloud_msg)) ->
      0 <= i -> 2 * i < height depth_msg ->
      0 <= j -> 2 * j < width depth_msg ->
      load_depth depth_msg (2 * i * row_step depth_msg) (2 * j) = Ok d ->
      valid d = true ->
      f64_ne_zero range_max = true ->
      gt d (fromMeters range_max) = true ->
      exists p,
        cell (convert depth_msg model range_max use_quiet_nan cv_ptr cloud_msg)
             (cell_index (width depth_msg) i j) = Some p /\
        (use_quiet_nan = true -> nan_filled p) /\
        (use_quiet_nan = false ->
           (exists rgb, color_at cv_ptr (2 * j) (2 * i) = Ok rgb /\
                        p = fill model (2 * j) (2 * i) (fromMeters range_max) rgb) /\
           pt_z p = f32_of_f64 (toMeters (fromMeters range_max)))) /\
  cell (convert (T := float) (f32_image 1 1 [three_f32]) unit_camera
          (f64_of_int 2) true None (blank_cloud 1)) 0 = Some bad_record /\
  pt_z <$> cell (convert (T := float) (f32_image 1 1 [three_f32]) unit_camera
                   (f64_of_int 2) false None (blank_cloud 1)) 0
    = Some (f32_of_int 2) /\
  cell (convert (T := Z) (u16_image 1 1 [3000]) unit_camera
          (f64_of_int 2) true None (blank_cloud 1)) 0 = Some bad_record /\
  pt_z <$> cell (convert (T := Z) (u16_image 1 1 [3000]) unit_camera
                   (f64_of_int 2) false None (blank_cloud 1)) 0
    = Some (f32_of_int 2) /\
  f32_of_int 2 <> f32_of_int 3.
Proof.
  split; [|repeat split; try reflexivity; discriminate].
  intros T sample traits depth_msg model range_max use_quiet_nan cv_ptr
    cloud_msg i j d Hwf Hsafe Hroom Hi0 Hi Hj0 Hj Hd Hvalid Hne Hgt.
  destruct (convert_cell_point depth_msg model range_max use_quiet_nan cv_ptr
              cloud_msg i j d Hwf Hsafe Hroom Hi0 Hi Hj0 Hj Hd) as (p & Hp & Hcell).
  exists p. split; [exact Hcell|]. split; intros ->.
  - eapply point_rejected; [|exact Hp].
    unfold clamp_depth. rewrite Hvalid, Hne, Hgt. reflexivity.
  - assert (Hclamp : clamp_depth range_max false d = Some (fromMeters range_max)).
    { unfold clamp_depth. rewrite Hvalid, Hne, Hgt. reflexivity. }
    destruct (point_accepted _ _ _ _ _ _ _ _ _ Hclamp Hp) as (rgb & Hrgb & ->).
    split; [eauto | reflexivity].
Qed.

Lemma range_exceeded_policy_witness :
  exists p,
    cell (convert (T := float) (f32_image 1 1 [three_f32]) unit_camera
            (f64_of_int 2) false None (blank_cloud 1))
         (cell_index (width (f32_image 1 1 [three_f32])) 0 0) = Some p /\
    (false = true -> nan_filled p) /\
    (false = false ->
       (exists rgb, color_at None (2 * 0) (2 * 0) = Ok rgb /\
                    p = fill unit_camera (2 * 0) (2 * 0)
                          (fromMeters (T := float) (f64_of_int 2)) rgb) /\
       pt_z p = f32_of_f64 (toMeters (fromMeters (T := float) (f64_of_int 2)))).
Proof.
  apply (proj1 range_exceeded_policy float _ _ (f32_image 1 1 [three_f32])
           unit_camera (f64_of_int 2) false None (blank_cloud 1) 0 0
           (float_of_bits three_f32));
    first [reflexivity | lia].
Defined.


(** C4: an invalid sample is written as the NaN-filled point when
    [range_max == 0] or [use_quiet_nan] is set, whatever the other of the
    two is, and the loop goes on: every sample of the frame is in its
    cell.  With [range_max != 0] and [use_quiet_nan] unset the point is
    filled from the depth [fromMeters(range_max)] like a valid one. *)
Theorem invalid_sample_policy
    (T : Type) (sample : DepthSample T) (traits : DepthTraits T)
    (depth_msg : Image) (model : PinholeCameraModel) (range_max : double)
    (use_quiet_nan : bool) (cv_ptr : option Mat) (cloud_msg : PointCloud2)
    (i j : Z) (d : T) :
  wf_depth depth_msg = true ->
  color_safe cv_ptr depth_msg = true ->
  half_up (height depth_msg) * half_up (width depth_msg)
    <= Z.of_nat (length (pc_data cloud_msg)) ->
  0 <= i -> 2 * i < height depth_msg ->
  0 <= j -> 2 * j < width depth_msg ->
  load_depth depth_msg (2 * i * row_step depth_msg) (2 * j) = Ok d ->
  valid d = false ->
  exists p,
    cell (convert depth_msg model range_max use_quiet_nan cv_ptr cloud_msg)
         (cell_index (width depth_msg) i j) = Some p /\
    (f64_eq_zero range_max = true \/ use_quiet_nan = true -> nan_filled p) /\
    (f64_ne_zero range_max = true -> use_quiet_nan = false ->
       exists rgb, color_at cv_ptr (2 * j) (2 * i) = Ok rgb /\
                   p = fill model (2 * j) (2 * i) (fromMeters range_max) rgb) /\
    (forall i' j' : Z,
       0 <= i' -> 2 * i' < height depth_msg ->
       0 <= j' -> 2 * j' < width depth_msg ->
       exists p',
         sample_point depth_msg model range_max use_quiet_nan cv_ptr i' j' = Ok p' /\
         cell (convert depth_msg model range_max use_quiet_nan cv_ptr cloud_msg)
              (cell_index (width depth_msg) i' j') = Some p').
Proof.
  intros Hwf Hsafe Hroom Hi0 Hi Hj0 Hj Hd Hinvalid.
  destruct (convert_cell_point depth_msg model range_max use_quiet_nan cv_ptr
              cloud_msg i j d Hwf Hsafe Hroom Hi0 Hi Hj0 Hj Hd) as (p & Hp & Hcell).
  exists p. split; [exact Hcell|]. split; [|split].
  - intros Hor. eapply point_rejected; [|exact Hp].
    unfold clamp_depth, f64_ne_zero. rewrite Hinvalid. simpl.
    destruct Hor as [-> | ->]; [reflexivity|].
    destruct (negb (f64_eq_zero range_max)); reflexivity.
  - intros Hne ->.
    assert (Hclamp : clamp_depth range_max false d = Some (fromMeters range_max)).
    { unfold clamp_depth. rewrite Hinvalid, Hne. reflexivity. }
    destruct (point_accepted _ _ _ _ _ _ _ _ _ Hclamp Hp) as (rgb & Hrgb & ->).
    eauto.
  - destruct (convert_safe depth_msg model range_max use_quiet_nan cv_ptr
                cloud_msg Hwf Hsafe Hroom) as (cloud' & Hrun & _ & Hcells & _).
    rewrite Hrun. exact Hcells.
Qed.

Lemma invalid_sample_policy_witness :
  exists p,
    cell (convert (T := Z) (u16_image 2 4 [0; 7; 1000; 7; 7; 7; 7; 7])
            unit_camera f64_zero false None (blank_cloud 2))
         (cell_index 4 0 0) = Some p /\
    nan_filled p.
Proof.
  destruct (invalid_sample_policy Z _ _ (u16_image 2 4 [0; 7; 1000; 7; 7; 7; 7; 7])
              unit_camera f64_zero false None (blank_cloud 2) 0 0 0)
    as (p & Hcell & Hnan & _); try first [reflexivity | lia].
  exists p. split; [exact Hcell | apply Hnan; left; reflexivity].
Defined.


(** C5: a sampled pixel (u, v) whose depth, clamped or not, is used comes
    out with x = (u - center_x) * depth * constant_x,
    y = (v - center_y) * depth * constant_y and z = toMeters(depth), in
    float arithmetic, where constant_x = toMeters(1) / fx and
    constant_y = toMeters(1) / fy; with principal point (0, 0), focal
    lengths (1, 1) and a float depth of 5.0 at (u, v) = (10, 20) the point
    is (50.0, 100.0, 5.0). *)
Theorem back_projection :
  (forall (T : Type) (sample : DepthSample T) (traits : DepthTraits T)
      (depth_msg : Image) (model : PinholeCameraModel) (range_max : double)
      (use_quiet_nan : bool) (cv_ptr : option Mat) (cloud_msg : PointCloud2)
      (i j : Z) (d depth : T),
      wf_depth depth_msg = true ->
      color_safe cv_ptr depth_msg = true ->
      half_up (height depth_msg) * half_up (width depth_msg)
        <= Z.of_nat (length (pc_data cloud_msg)) ->
      0 <= i -> 2 * i < height depth_msg ->
      0 <= j -> 2 * j < width depth_msg ->
      load_depth depth_msg (2 * i * row_step depth_msg) (2 * j) = Ok d ->
      clamp_depth range_max use_quiet_nan d = Some depth ->
      let u := 2 * j in
      let v := 2 * i in
      let constant_x := f32_of_f64 (f64_div (toMeters (of_int 1)) (fx model)) in
      let constant_y := f32_of_f64 (f64_div (toMeters (of_int 1)) (fy model)) in
      exists p,
        cell (convert depth_msg model range_max use_quiet_nan cv_ptr cloud_msg)
             (cell_index (width depth_msg) i j) = Some p /\
        pt_x p = f32_mul (f32_mul (f32_sub (f32_of_int u) (f32_of_f64 (cx model)))
                                  (to_float depth)) constant_x /\
        pt_y p = f32_mul (f32_mul (f32_sub (f32_of_int v) (f32_of_f64 (cy model)))
                                  (to_float depth)) constant_y /\
        pt_z p = f32_of_f64 (toMeters depth)) /\
  (let out := cell (convert (T := float)
                      (f32_image 22 12 (replicate 264 five_f32)) unit_camera
                      f64_zero false None (blank_cloud 66))
                   (cell_index 12 10 5) in
   pt_x <$> out = Some (f32_of_int 50) /\
   pt_y <$> out = Some (f32_of_int 100) /\
   pt_z <$> out = Some (f32_of_int 5)).
Proof.
  split; [|vm_compute; repeat split].
  intros T sample traits depth_msg model range_max use_quiet_nan cv_ptr
    cloud_msg i j d depth Hwf Hsafe Hroom Hi0 Hi Hj0 Hj Hd Hclamp u v cx' cy'.
  destruct (convert_cell_point depth_msg model range_max use_quiet_nan cv_ptr
              cloud_msg i j d Hwf Hsafe Hroom Hi0 Hi Hj0 Hj Hd) as (p & Hp & Hcell).
  destruct (point_accepted _ _ _ _ _ _ _ _ _ Hclamp Hp) as (rgb & Hrgb & ->).
  exists (fill model u v depth rgb). split; [exact Hcell|].
  repeat split.
Qed.

Lemma back_projection_witness :
  exists p,
    cell (convert (T := float) (f32_image 22 12 (replicate 264 five_f32))
            unit_camera f64_zero false None (blank_cloud 66))
         (cell_index 12 10 5) = Some p /\
    pt_x p = f32_of_int 50 /\ pt_y p = f32_of_int 100 /\ pt_z p = f32_of_int 5.
Proof.
  destruct (proj1 back_projection float _ _
              (f32_image 22 12 (replicate 264 five_f32)) unit_camera
              f64_zero false None (blank_cloud 66) 10 5
              (float_of_bits five_f32) (float_of_bits five_f32))
    as (p & Hcell & Hx & Hy & Hz); try first [reflexivity | lia].
  exists p. split; [exact Hcell|].
  rewrite Hx, Hy, Hz. repeat split.
Defined.

(** C6: only the four-channel branch tests the pixel against the color
    matrix.  With a 1 x 1 color matrix and the sample at column 2, a
    three-channel matrix contributes 10 and not 0, a single-channel matrix
    is read outside its data, and a four-channel matrix contributes 0. *)
Theorem color_bounds_unchecked :
  let depth := f32_image 2 4 (replicate 8 one_f32) in
  let run cv := convert (T := float) depth unit_camera f64_zero true
                  (Some cv) (blank_cloud 2) in
  (cols rgb_pixel >? 2) = false /\
  rgb_bits <$> cell (run rgb_pixel) 1 = Some 10 /\
  run gray_pixel = Fault ColorOutOfBounds /\
  rgb_bits <$> cell (run bgra_pixel) 0 = Some 660510 /\
  rgb_bits <$> cell (run bgra_pixel) 1 = Some 0.
Proof. vm_compute. repeat split. Qed.


(** C7: a depth image whose encoding is neither 16UC1 nor 32FC1 makes
    [depthCb] return with the node as it was: nothing is published, the
    callback does not fail, and the frame that follows is handled as if
    the refused one had never come. *)
Theorem unsupported_encoding_dropped (st : Node) (image : Image) :
  encoding image <> TYPE_16UC1 ->
  encoding image <> TYPE_32FC1 ->
  depthCb st image = Ok st /\
  emitted st (depthCb st image) = Ok [] /\
  (forall next : Image,
     (depthCb st image ≫= fun st' => depthCb st' next) = depthCb st next).
Proof.
  intros H16 H32.
  assert (Hdrop : depthCb st image = Ok st).
  { unfold depthCb. destruct (g_cam_info st); [|reflexivity].
    apply String.eqb_neq in H16, H32. rewrite H16, H32. reflexivity. }
  rewrite Hdrop. split; [reflexivity|]. split; [|reflexivity].
  unfold emitted. simpl. rewrite Nat.sub_diag. reflexivity.
Qed.


Lemma unsupported_encoding_dropped_witness :
  depthCb example_node (image_of "8UC1" 1 2 2 [1; 2; 3; 4]) = Ok example_node.
Proof.
  apply (unsupported_encoding_dropped example_node
           (image_of "8UC1" 1 2 2 [1; 2; 3; 4])); discriminate.
Defined.


(** C8: with a single-channel color image the composition [rgb &= gray]
    on [rgb = 0] gives 0 whatever the gray value read, so every point that
    is not NaN-filled carries the all-zero bit pattern in its rgb field. *)
Theorem grayscale_color_is_zero
    (T : Type) (sample : DepthSample T) (traits : DepthTraits T)
    (depth_msg : Image) (model : PinholeCameraModel) (range_max : double)
    (use_quiet_nan : bool) (cv : Mat) (cloud_msg : PointCloud2) :
  type cv = CV_8UC1 ->
  (forall u v rgb : Z, color_at (Some cv) u v = Ok rgb -> rgb = 0) /\
  (forall (i j : Z) (d depth : T),
     wf_depth depth_msg = true ->
     color_safe (Some cv) depth_msg = true ->
     half_up (height depth_msg) * half_up (width depth_msg)
       <= Z.of_nat (length (pc_data cloud_msg)) ->
     0 <= i -> 2 * i < height depth_msg ->
     0 <= j -> 2 * j < width depth_msg ->
     load_depth depth_msg (2 * i * row_step depth_msg) (2 * j) = Ok d ->
     clamp_depth range_max use_quiet_nan d = Some depth ->
     exists p,
       cell (convert depth_msg model range_max use_quiet_nan (Some cv) cloud_msg)
            (cell_index (width depth_msg) i j) = Some p /\
       pt_rgb p = reinterpret_int_as_float 0 /\
       bits_of_float (pt_rgb p) = 0).
Proof.
  intros Htype.
  assert (Hzero : forall u v rgb : Z, color_at (Some cv) u v = Ok rgb -> rgb = 0).
  { intros u v rgb. unfold color_at. rewrite Htype. simpl.
    destruct (mat_at cv 1 v u 0) as [g|]; [|discriminate].
    simpl. intros Hrgb. injection Hrgb as <-. reflexivity. }
  split; [exact Hzero|].
  intros i j d depth Hwf Hsafe Hroom Hi0 Hi Hj0 Hj Hd Hclamp.
  destruct (convert_cell_point depth_msg model range_max use_quiet_nan (Some cv)
              cloud_msg i j d Hwf Hsafe Hroom Hi0 Hi Hj0 Hj Hd) as (p & Hp & Hcell).
  destruct (point_accepted _ _ _ _ _ _ _ _ _ Hclamp Hp) as (rgb & Hrgb & ->).
  apply Hzero in Hrgb. subst rgb.
  eexists. split; [exact Hcell|]. split; reflexivity.
Qed.

(** A 2 x 2 gray matrix with the value 200 at its origin. *)
Lemma grayscale_color_is_zero_witness :
  exists p,
    cell (convert (T := float) (f32_image 2 2 (replicate 4 one_f32)) unit_camera
            f64_zero false
            (Some {| rows := 2; cols := 2; type := CV_8UC1; mat_step := 2;
                     mat_data := [200; 201; 202; 203] |})
            (blank_cloud 1))
         (cell_index 2 0 0) = Some p /\
    pt_rgb p = reinterpret_int_as_float 0 /\
    bits_of_float (pt_rgb p) = 0.
Proof.
  apply (proj2 (grayscale_color_is_zero float _ _
                  (f32_image 2 2 (replicate 4 one_f32)) unit_camera f64_zero false
                  {| rows := 2; cols := 2; type := CV_8UC1; mat_step := 2;
                     mat_data := [200; 201; 202; 203] |}
                  (blank_cloud 1) eq_refl)
               0 0 (float_of_bits one_f32) (float_of_bits one_f32));
    first [reflexivity | lia].
Defined.





(** C10: without a color image the call returns for every well-formed
    depth image, and every point that is not NaN-filled has the all-zero
    pattern, +0.0f, written to its rgb field, whatever the cloud held
    before. *)
Theorem no_color_rgb_is_zero
    (T : Type) (sample : DepthSample T) (traits : DepthTraits T)
    (depth_msg : Image) (model : PinholeCameraModel) (range_max : double)
    (use_quiet_nan : bool) (cloud_msg : PointCloud2) :
  wf_depth depth_msg = true ->
  half_up (height depth_msg) * half_up (width depth_msg)
    <= Z.of_nat (length (pc_data cloud_msg)) ->
  is_ok (convert depth_msg model range_max use_quiet_nan None cloud_msg) = true /\
  (forall (i j : Z) (d depth : T),
     0 <= i -> 2 * i < height depth_msg ->
     0 <= j -> 2 * j < width depth_msg ->
     load_depth depth_msg (2 * i * row_step depth_msg) (2 * j) = Ok d ->
     clamp_depth range_max use_quiet_nan d = Some depth ->
     exists p,
       cell (convert depth_msg model range_max use_quiet_nan None cloud_msg)
            (cell_index (width depth_msg) i j) = Some p /\
       pt_rgb p = S754_zero false /\
       bits_of_float (pt_rgb p) = 0).
Proof.
  intros Hwf Hroom. split.
  - destruct (convert_safe depth_msg model range_max use_quiet_nan None
                cloud_msg Hwf eq_refl Hroom) as (cloud' & -> & _).
    reflexivity.
  - intros i j d depth Hi0 Hi Hj0 Hj Hd Hclamp.
    destruct (convert_cell_point depth_msg model range_max use_quiet_nan None
                cloud_msg i j d Hwf eq_refl Hroom Hi0 Hi Hj0 Hj Hd)
      as (p & Hp & Hcell).
    destruct (point_accepted _ _ _ _ _ _ _ _ _ Hclamp Hp) as (rgb & Hrgb & ->).
    injection Hrgb as <-.
    eexists. split; [exact Hcell|]. split; reflexivity.
Qed.

Lemma no_color_rgb_is_zero_witness :
  is_ok (convert (T := Z) (u16_image 2 2 [1500; 0; 0; 0]) unit_camera
           f64_zero true None (blank_cloud 1)) = true /\
  exists p,
    cell (convert (T := Z) (u16_image 2 2 [1500; 0; 0; 0]) unit_camera
            f64_zero true None (blank_cloud 1))
         (cell_index 2 0 0) = Some p /\
    pt_rgb p = S754_zero false /\
    bits_of_float (pt_rgb p) = 0.
Proof.
  destruct (no_color_rgb_is_zero Z _ _ (u16_image 2 2 [1500; 0; 0; 0])
              unit_camera f64_zero true (blank_cloud 1))
    as [Hok Hcells]; try first [reflexivity | lia].
  split; [exact Hok|].
  apply (Hcells 0 0 1500 1500); first [reflexivity | lia].
Defined.

(* ------------------------------------------------------------------ *)
(** ** Further properties of the code *)

(** Number of passes of [for (i = from; i < n; i += 2)]. *)
Lemma passes_step (n from : Z) :
  from < n ->
  Z.max 0 (half_up (n - from)) = 1 + Z.max 0 (half_up (n - (from + 2))).
Proof.
  intros Hlt. unfold half_up.
  replace (n - from + 1) with ((n - (from + 2) + 1) + 1 * 2) by lia.
  rewrite Z.div_add by lia.
  assert (0 <= (n - (from + 2) + 1) / 2) by (apply Z.div_pos; lia).
  lia.
Qed.

Lemma passes_done (n from : Z) :
  n <= from -> Z.max 0 (half_up (n - from)) = 0.
Proof.
  intros Hge. unfold half_up.
  assert ((n - from + 1) / 2 <= 0).
  { apply Z.lt_succ_r. apply Z.div_lt_upper_bound; lia. }
  lia.
Qed.

Section Inversion.

Context {T : Type} {sample : DepthSample T} {traits : DepthTraits T}.
Variable depth_msg : Image.
Variable model : PinholeCameraModel.
Variable range_max : double.
Variable use_quiet_nan : bool.
Variable cv_ptr : option Mat.

Local Abbreviation W := (static_cast_int (width depth_msg)).
Local Abbreviation H := (static_cast_int (height depth_msg)).
Local Abbreviation inner := (inner_loop depth_msg model range_max use_quiet_nan cv_ptr).
Local Abbreviation outer := (outer_loop depth_msg model range_max use_quiet_nan cv_ptr).

(** A row that completes has advanced the iterators once per pass, inside
    the payload, and has touched no other cell. *)
Lemma inner_loop_inv (v depth_row : Z) (fuel : nat) :
  forall (u : Z) (it it' : iters),
    inner fuel v depth_row u it = Ok it' ->
    length (buf it') = length (buf it) /\
    Z.of_nat (pos it') = Z.of_nat (pos it) + Z.max 0 (half_up (W - u)) /\
    ((pos it < pos it')%nat -> (pos it' <= length (buf it))%nat) /\
    (forall m : nat, (m < pos it \/ pos it' <= m)%nat ->
       buf it' !! m = buf it !! m).
Proof.
  induction fuel as [|fuel IH]; intros u it it'; simpl;
    destruct (Z.ltb_spec u W) as [Hlt|Hge]; try discriminate.
  - intros Heq. injection Heq as <-. rewrite passes_done by lia.
    repeat split; auto; lia.
  - destruct (load_depth depth_msg depth_row u) as [d|]; [|discriminate]. simpl.
    destruct (point model range_max use_quiet_nan cv_ptr u v d) as [p|];
      [|discriminate]. simpl.
    unfold store. destruct (Nat.ltb_spec (pos it) (length (buf it))) as [Hin|];
      [|discriminate]. simpl.
    intros Hrun. apply IH in Hrun as (Hlen & Hpos & Hroom & Hrest).
    simpl in *. rewrite length_insert in Hlen, Hroom.
    rewrite (passes_step W u Hlt).
    split; [exact Hlen|]. split; [lia|]. split.
    + intros _. destruct (Nat.eq_dec (pos it') (S (pos it))); [lia|].
      apply Hroom. lia.
    + intros m Hm. rewrite Hrest by lia. apply list_lookup_insert_ne. lia.
  - intros Heq. injection Heq as <-. rewrite passes_done by lia.
    repeat split; auto; lia.
Qed.

Lemma outer_loop_inv (fuel : nat) :
  forall (v depth_row : Z) (it it' : iters),
    outer fuel v depth_row it = Ok it' ->
    length (buf it') = length (buf it) /\
    Z.of_nat (pos it')
      = Z.of_nat (pos it)
        + Z.max 0 (half_up (H - v)) * Z.max 0 (half_up W) /\
    ((pos it < pos it')%nat -> (pos it' <= length (buf it))%nat) /\
    (forall m : nat, (m < pos it \/ pos it' <= m)%nat ->
       buf it' !! m = buf it !! m).
Proof.
  induction fuel as [|fuel IH]; intros v depth_row it it'; simpl;
    destruct (Z.ltb_spec v H) as [Hlt|Hge]; try discriminate.
  - intros Heq. injection Heq as <-. rewrite passes_done by lia.
    repeat split; auto; lia.
  - destruct (inner _ v depth_row 0 it) as [it1|] eqn:Hrow; [|discriminate].
    simpl. intros Hrun.
    apply inner_loop_inv in Hrow as (Hlen1 & Hpos1 & Hroom1 & Hrest1).
    apply IH in Hrun as (Hlen2 & Hpos2 & Hroom2 & Hrest2).
    rewrite Z.sub_0_r in Hpos1.
    rewrite (passes_step H v Hlt).
    split; [lia|]. split; [lia|]. split.
    + intros Hadv. destruct (Nat.eq_dec (pos it') (pos it1)) as [He|Hne].
      * rewrite He. apply Hroom1. lia.
      * rewrite <- Hlen1. apply Hroom2. lia.
    + intros m Hm. rewrite Hrest2 by lia. apply Hrest1. lia.
  - intros Heq. injection Heq as <-. rewrite passes_done by lia.
    repeat split; auto; lia.
Qed.

End Inversion.

Section OnlyCloudFaults.

Context {T : Type} {sample : DepthSample T} {traits : DepthTraits T}.
Variable depth_msg : Image.
Variable model : PinholeCameraModel.
Variable range_max : double.
Variable use_quiet_nan : bool.
Variable cv_ptr : option Mat.

Local Abbreviation W := (static_cast_int (width depth_msg)).
Local Abbreviation H := (static_cast_int (height depth_msg)).
Local Abbreviation inner := (inner_loop depth_msg model range_max use_quiet_nan cv_ptr).
Local Abbreviation outer := (outer_loop depth_msg model range_max use_quiet_nan cv_ptr).
Local Abbreviation sample' := (sample_point depth_msg model range_max use_quiet_nan cv_ptr).

(** When every pixel of the row can be read, the row ends in a cloud or
    in a write past the cloud. *)
Lemma inner_loop_readable (v depth_row : Z) (n : nat) :
  forall (fuel : nat) (u : Z) (it : iters),
    (n <= fuel)%nat ->
    W <= u + 2 * Z.of_nat n < W + 2 ->
    (forall k : nat, (k < n)%nat ->
       is_ok (pixel depth_msg model range_max use_quiet_nan cv_ptr
                v depth_row (u + 2 * Z.of_nat k)) = true) ->
    is_ok (inner fuel v depth_row u it) = true \/
    inner fuel v depth_row u it = Fault CloudOutOfBounds.
Proof.
  induction n as [|n IH]; intros fuel u it Hfuel Hw Hok.
  - left. destruct fuel; simpl; (destruct (Z.ltb_spec u W); [lia | reflexivity]).
  - destruct fuel as [|fuel]; [lia|].
    simpl. destruct (Z.ltb_spec u W); [|lia].
    pose proof (Hok 0%nat ltac:(lia)) as H0.
    replace (u + 2 * Z.of_nat 0) with u in H0 by lia.
    apply is_ok_true in H0 as [p0 Hp0]. unfold pixel in Hp0.
    destruct (load_depth depth_msg depth_row u) as [d|]; [|discriminate].
    simpl in *. rewrite Hp0. simpl.
    unfold store. destruct (_ <? _)%nat; simpl; [|right; reflexivity].
    apply IH; [lia | lia |].
    intros k Hk. specialize (Hok (S k) ltac:(lia)).
    replace (u + 2 + 2 * Z.of_nat k) with (u + 2 * Z.of_nat (S k)) by lia.
    exact Hok.
Qed.

Lemma outer_loop_readable (m : nat) :
  forall (fuel : nat) (i : Z) (it : iters),
    (m <= fuel)%nat ->
    0 <= W ->
    H <= 2 * i + 2 * Z.of_nat m < H + 2 ->
    (forall a b : nat, (a < m)%nat -> (b < Z.to_nat (half_up W))%nat ->
       is_ok (sample' (i + Z.of_nat a) (Z.of_nat b)) = true) ->
    is_ok (outer fuel (2 * i) (2 * i * row_step depth_msg) it) = true \/
    outer fuel (2 * i) (2 * i * row_step depth_msg) it = Fault CloudOutOfBounds.
Proof.
  induction m as [|m IH]; intros fuel i it Hfuel HW Hh Hok.
  - left. destruct fuel; simpl;
      (destruct (Z.ltb_spec (2 * i) H); [lia | reflexivity]).
  - destruct fuel as [|fuel]; [lia|].
    simpl. destruct (Z.ltb_spec (2 * i) H); [|lia].
    pose proof (half_up_bounds W) as Hcw.
    destruct (inner_loop_readable (2 * i) (2 * i * row_step depth_msg)
                (Z.to_nat (half_up W)) (Z.to_nat W) 0 it) as [Hrow|Hrow].
    + lia.
    + lia.
    + intros k Hk. specialize (Hok 0%nat k ltac:(lia) Hk).
      unfold sample_point in Hok.
      replace (i + Z.of_nat 0) with i in Hok by lia. exact Hok.
    + apply is_ok_true in Hrow as [it1 ->]. simpl.
      replace (2 * i + 2) with (2 * (i + 1)) by lia.
      replace (2 * i * row_step depth_msg + 2 * row_step depth_msg)
        with (2 * (i + 1) * row_step depth_msg) by lia.
      apply IH; [lia | exact HW | lia |].
      intros a b Ha Hb. specialize (Hok (S a) b ltac:(lia) Hb).
      replace (i + 1 + Z.of_nat a) with (i + Z.of_nat (S a)) by lia. exact Hok.
    + rewrite Hrow. right. reflexivity.
Qed.

(** A well-formed depth image and a readable color matrix are never read
    out of range: the call can only fail on the cloud. *)
Lemma convert_readable (cloud_msg : PointCloud2) :
  wf_depth depth_msg = true ->
  color_safe cv_ptr depth_msg = true ->
  is_ok (convert depth_msg model range_max use_quiet_nan cv_ptr cloud_msg) = true \/
  convert depth_msg model range_max use_quiet_nan cv_ptr cloud_msg
    = Fault CloudOutOfBounds.
Proof.
  intros Hwf Hsafe.
  destruct (wf_depth_facts depth_msg Hwf) as (Hh & Hw & _).
  pose proof (half_up_bounds (height depth_msg)) as Hbh.
  unfold convert.
  destruct (outer_loop_readable (Z.to_nat (half_up (height depth_msg)))
              (Z.to_nat H) 0 {| pos := 0; buf := pc_data cloud_msg |})
    as [Hrun|Hrun]; rewrite ?static_cast_int_small by lia; try lia.
  - intros a b Ha Hb. pose proof (half_up_bounds (width depth_msg)).
    apply sample_point_ok; try assumption; lia.
  - rewrite static_cast_int_small in Hrun by lia.
    change (2 * 0) with 0 in Hrun.
    change (0 * row_step depth_msg) with 0 in Hrun.
    apply is_ok_true in Hrun as [it ->]. left. reflexivity.
  - rewrite static_cast_int_small in Hrun by lia.
    change (2 * 0) with 0 in Hrun.
    change (0 * row_step depth_msg) with 0 in Hrun.
    rewrite Hrun. right. reflexivity.
Qed.

(** What a call that returns has done to the cloud. *)
Lemma convert_inv (cloud_msg cloud' : PointCloud2) :
  convert depth_msg model range_max use_quiet_nan cv_ptr cloud_msg = Ok cloud' ->
  cloud' = set_data cloud_msg (pc_data cloud') /\
  length (pc_data cloud') = length (pc_data cloud_msg) /\
  Z.max 0 (half_up H) * Z.max 0 (half_up W)
    <= Z.of_nat (length (pc_data cloud_msg)) /\
  (forall k : nat,
     Z.max 0 (half_up H) * Z.max 0 (half_up W) <= Z.of_nat k ->
     pc_data cloud' !! k = pc_data cloud_msg !! k).
Proof.
  unfold convert.
  destruct (outer _ 0 0 _) as [it|] eqn:Hrun; [|discriminate].
  simpl. intros Heq. injection Heq as <-.
  apply outer_loop_inv in Hrun as (Hlen & Hpos & Hroom & Hrest).
  simpl in *. rewrite Z.sub_0_r in Hpos.
  split; [reflexivity|]. split; [exact Hlen|]. split.
  - destruct (Nat.eq_dec (pos it) 0%nat); [lia|].
    specialize (Hroom ltac:(lia)). lia.
  - intros k Hk. apply Hrest. right. lia.
Qed.

(** Without a cell for every sample the call writes past the cloud. *)
Lemma convert_short_cloud (cloud_msg : PointCloud2) :
  wf_depth depth_msg = true ->
  color_safe cv_ptr depth_msg = true ->
  Z.of_nat (length (pc_data cloud_msg))
    < half_up (height depth_msg) * half_up (width depth_msg) ->
  convert depth_msg model range_max use_quiet_nan cv_ptr cloud_msg
    = Fault CloudOutOfBounds.
Proof.
  intros Hwf Hsafe Hshort.
  destruct (wf_depth_facts depth_msg Hwf) as (Hh & Hw & _).
  pose proof (half_up_bounds (height depth_msg)) as Hbh.
  pose proof (half_up_bounds (width depth_msg)) as Hbw.
  destruct (convert_readable cloud_msg Hwf Hsafe) as [Hok|Hfault];
    [|exact Hfault].
  apply is_ok_true in Hok as [cloud' Hrun].
  apply convert_inv in Hrun as (_ & _ & Hroom & _).
  rewrite !static_cast_int_small in Hroom by lia.
  rewrite !Z.max_r in Hroom by lia. lia.
Qed.

End OnlyCloudFaults.


Section Degenerate.

Context {T : Type} {sample : DepthSample T} {traits : DepthTraits T}.
Variable depth_msg : Image.
Variable model : PinholeCameraModel.
Variable range_max : double.
Variable use_quiet_nan : bool.
Variable cv_ptr : option Mat.


End Degenerate.



(** X2: on a well-formed depth image, with a color matrix that covers it,
    nothing is read out of range, and the call returns exactly when the
    cloud has a cell for each of the ceil(H/2) * ceil(W/2) samples;
    otherwise it writes past the end of the cloud. *)
Theorem convert_returns_iff_room
    (T : Type) (sample : DepthSample T) (traits : DepthTraits T)
    (depth_msg : Image) (model : PinholeCameraModel) (range_max : double)
    (use_quiet_nan : bool) (cv_ptr : option Mat) (cloud_msg : PointCloud2) :
  wf_depth depth_msg = true ->
  color_safe cv_ptr depth_msg = true ->
  (is_ok (convert depth_msg model range_max use_quiet_nan cv_ptr cloud_msg) = true
   <-> half_up (height depth_msg) * half_up (width depth_msg)
         <= Z.of_nat (length (pc_data cloud_msg))) /\
  (Z.of_nat (length (pc_data cloud_msg))
     < half_up (height depth_msg) * half_up (width depth_msg) ->
   convert depth_msg model range_max use_quiet_nan cv_ptr cloud_msg
     = Fault CloudOutOfBounds).
Proof.
  intros Hwf Hsafe.
  assert (Hshort : Z.of_nat (length (pc_data cloud_msg))
                   < half_up (height depth_msg) * half_up (width depth_msg) ->
                   convert depth_msg model range_max use_quiet_nan cv_ptr cloud_msg
                   = Fault CloudOutOfBounds)
    by (apply convert_short_cloud; assumption).
  split; [split|exact Hshort].
  - intros Hok.
    destruct (Z.le_gt_cases
                (half_up (height depth_msg) * half_up (width depth_msg))
                (Z.of_nat (length (pc_data cloud_msg)))) as [Hroom|Hno];
      [exact Hroom|].
    rewrite Hshort in Hok by lia. discriminate.
  - intros Hroom.
    destruct (convert_safe depth_msg model range_max use_quiet_nan cv_ptr
                cloud_msg Hwf Hsafe Hroom) as (cloud' & -> & _).
    reflexivity.
Qed.

Lemma convert_returns_iff_room_witness :
  convert (T := Z) (u16_image 3 5 (replicate 15 1000)) unit_camera
    f64_zero true None (blank_cloud 5) = Fault CloudOutOfBounds.
Proof.
  apply (convert_returns_iff_room Z _ _ (u16_image 3 5 (replicate 15 1000))
           unit_camera f64_zero true None (blank_cloud 5));
    first [reflexivity | vm_compute; reflexivity].
Defined.

(** X3: a call that returns has not resized the cloud, has left its
    height, width and flags alone, and has left every cell after the
    sampled ones as it was. *)
Theorem convert_keeps_frame
    (T : Type) (sample : DepthSample T) (traits : DepthTraits T)
    (depth_msg : Image) (model : PinholeCameraModel) (range_max : double)
    (use_quiet_nan : bool) (cv_ptr : option Mat) (cloud_msg cloud' : PointCloud2) :
  convert depth_msg model range_max use_quiet_nan cv_ptr cloud_msg = Ok cloud' ->
  pc_height cloud' = pc_height cloud_msg /\
  pc_width cloud' = pc_width cloud_msg /\
  pc_is_dense cloud' = pc_is_dense cloud_msg /\
  pc_is_bigendian cloud' = pc_is_bigendian cloud_msg /\
  length (pc_data cloud') = length (pc_data cloud_msg) /\
  (forall k : nat,
     Z.max 0 (half_up (static_cast_int (height depth_msg)))
       * Z.max 0 (half_up (static_cast_int (width depth_msg))) <= Z.of_nat k ->
     pc_data cloud' !! k = pc_data cloud_msg !! k).
Proof.
  intros Hrun. apply convert_inv in Hrun as (Hframe & Hlen & _ & Hrest).
  rewrite Hframe. simpl. auto 10.
Qed.

Lemma convert_keeps_frame_witness :
  match convert (T := Z) (u16_image 2 2 [1000; 0; 0; 0]) unit_camera
          f64_zero true None (blank_cloud 3) with
  | Ok cloud' =>
      length (pc_data cloud') = 3%nat /\
      pc_data cloud' !! 2%nat = Some zero_record
  | Fault _ => False
  end.
Proof.
  destruct (convert (T := Z) (u16_image 2 2 [1000; 0; 0; 0]) unit_camera
              f64_zero true None (blank_cloud 3)) as [cloud'|f] eqn:Hrun.
  - destruct (convert_keeps_frame Z _ _ _ _ _ _ _ _ _ Hrun)
      as (_ & _ & _ & _ & Hlen & Hrest).
    split; [exact Hlen|].
    rewrite Hrest; [reflexivity | vm_compute; discriminate].
  - vm_compute in Hrun. discriminate.
Defined.

Section QuietNan.

Context {T : Type} {sample : DepthSample T} {traits : DepthTraits T}.
Variable depth_msg : Image.
Variable model : PinholeCameraModel.
Variable range_max : double.
Variable cv_ptr : option Mat.
Hypothesis range_disabled : f64_eq_zero range_max = true.

Lemma clamp_depth_range_disabled (b : bool) (d : T) :
  clamp_depth range_max b d = if valid d then Some d else None.
Proof.
  unfold clamp_depth, f64_ne_zero. rewrite range_disabled.
  destruct (valid d); reflexivity.
Qed.

Lemma point_range_disabled (u v : Z) (d : T) :
  point model range_max true cv_ptr u v d
  = point model range_max false cv_ptr u v d.
Proof. unfold point. rewrite !clamp_depth_range_disabled. reflexivity. Qed.

Lemma inner_loop_range_disabled (v depth_row : Z) (fuel : nat) :
  forall (u : Z) (it : iters),
    inner_loop depth_msg model range_max true cv_ptr fuel v depth_row u it
    = inner_loop depth_msg model range_max false cv_ptr fuel v depth_row u it.
Proof.
  induction fuel as [|fuel IH]; intros u it; simpl; [reflexivity|].
  destruct (u <? _); [|reflexivity].
  destruct (load_depth depth_msg depth_row u) as [d|]; [|reflexivity]. simpl.
  rewrite point_range_disabled.
  destruct (point _ _ false _ u v d) as [p|]; [|reflexivity]. simpl.
  destruct (store it p) as [it'|]; [|reflexivity]. simpl. apply IH.
Qed.

Lemma outer_loop_range_disabled (fuel : nat) :
  forall (v depth_row : Z) (it : iters),
    outer_loop depth_msg model range_max true cv_ptr fuel v depth_row it
    = outer_loop depth_msg model range_max false cv_ptr fuel v depth_row it.
Proof.
  induction fuel as [|fuel IH]; intros v depth_row it; simpl; [reflexivity|].
  destruct (v <? _); [|reflexivity].
  rewrite inner_loop_range_disabled.
  destruct (inner_loop _ _ _ false _ _ v depth_row 0 it) as [it'|];
    [|reflexivity].
  simpl. apply IH.
Qed.

End QuietNan.

(** X4: with [range_max == 0.0] (either zero; the default) the parameter
    [use_quiet_nan] has no effect: a valid sample is never clamped or
    rejected, an invalid one is always NaN-filled, and the two settings
    give the same outcome on every input. *)
Theorem range_max_zero_ignores_quiet_nan
    (T : Type) (sample : DepthSample T) (traits : DepthTraits T)
    (depth_msg : Image) (model : PinholeCameraModel) (range_max : double)
    (cv_ptr : option Mat) (cloud_msg : PointCloud2) :
  f64_eq_zero range_max = true ->
  (forall (b : bool) (d : T),
     clamp_depth range_max b d = if valid d then Some d else None) /\
  convert depth_msg model range_max true cv_ptr cloud_msg
  = convert depth_msg model range_max false cv_ptr cloud_msg.
Proof.
  intros Hzero. split.
  - intros b d. apply clamp_depth_range_disabled. exact Hzero.
  - unfold convert. rewrite outer_loop_range_disabled by exact Hzero.
    reflexivity.
Qed.

Lemma range_max_zero_ignores_quiet_nan_witness :
  convert (T := Z) (u16_image 2 4 [0; 7; 1000; 7; 7; 7; 7; 7]) unit_camera
    (S754_zero true) true None (blank_cloud 2)
  = convert (T := Z) (u16_image 2 4 [0; 7; 1000; 7; 7; 7; 7; 7]) unit_camera
      (S754_zero true) false None (blank_cloud 2).
Proof.
  apply (range_max_zero_ignores_quiet_nan Z _ _
           (u16_image 2 4 [0; 7; 1000; 7; 7; 7; 7; 7]) unit_camera
           (S754_zero true) None (blank_cloud 2)).
  reflexivity.
Defined.

(** [x > x] is false for every float, NaN included. *)
Lemma f32_gt_irrefl (x : float) : f32_gt x x = false.
Proof.
  unfold f32_gt, SFltb.
  destruct x as [s|s| |s m e]; simpl; try reflexivity.
  - destruct s; reflexivity.
  - destruct s; rewrite Z.compare_refl, Pos.compare_cont_refl; reflexivity.
Qed.

Lemma clamp_depth_within_range
    {T : Type} {sample : DepthSample T} {traits : DepthTraits T}
    (range_max : double) (use_quiet_nan : bool) (d depth : T) :
  (forall x : T, gt x x = false) ->
  f64_ne_zero range_max = true ->
  clamp_depth range_max use_quiet_nan d = Some depth ->
  gt depth (fromMeters range_max) = false.
Proof.
  intros Hirr Hne. unfold clamp_depth. rewrite Hne.
  destruct (valid d); simpl.
  - destruct (gt d (fromMeters range_max)) eqn:Hgt.
    + destruct use_quiet_nan; [discriminate|].
      intros Heq. injection Heq as <-. apply Hirr.
    + intros Heq. injection Heq as <-. exact Hgt.
  - destruct use_quiet_nan; simpl; [discriminate|].
    intros Heq. injection Heq as <-. apply Hirr.
Qed.

(** X5: with [range_max != 0.0] no point of the cloud comes from a depth
    beyond [fromMeters(range_max)]: every sample's cell holds the
    NaN-filled point or a point filled from a depth that does not compare
    greater than that bound.  This needs [>] irreflexive on the sample
    type, as it is on [uint16_t] and on [float]. *)
Theorem cloud_within_range
    (T : Type) (sample : DepthSample T) (traits : DepthTraits T)
    (depth_msg : Image) (model : PinholeCameraModel) (range_max : double)
    (use_quiet_nan : bool) (cv_ptr : option Mat) (cloud_msg : PointCloud2) :
  (forall x : T, gt x x = false) ->
  f64_ne_zero range_max = true ->
  wf_depth depth_msg = true ->
  color_safe cv_ptr depth_msg = true ->
  half_up (height depth_msg) * half_up (width depth_msg)
    <= Z.of_nat (length (pc_data cloud_msg)) ->
  forall i j : Z,
    0 <= i -> 2 * i < height depth_msg ->
    0 <= j -> 2 * j < width depth_msg ->
    exists p,
      cell (convert depth_msg model range_max use_quiet_nan cv_ptr cloud_msg)
           (cell_index (width depth_msg) i j) = Some p /\
      (nan_filled p \/
       exists (depth : T) (rgb : Z),
         gt depth (fromMeters range_max) = false /\
         p = fill model (2 * j) (2 * i) depth rgb).
Proof.
  intros Hirr Hne Hwf Hsafe Hroom i j Hi0 Hi Hj0 Hj.
  destruct (load_depth_in_range depth_msg i j Hwf Hi0 Hi Hj0 Hj) as [d Hd].
  destruct (convert_cell_point depth_msg model range_max use_quiet_nan cv_ptr
              cloud_msg i j d Hwf Hsafe Hroom Hi0 Hi Hj0 Hj Hd) as (p & Hp & Hcell).
  exists p. split; [exact Hcell|].
  destruct (clamp_depth range_max use_quiet_nan d) as [depth|] eqn:Hclamp.
  - right.
    destruct (point_accepted _ _ _ _ _ _ _ _ _ Hclamp Hp) as (rgb & _ & ->).
    exists depth, rgb. split; [|reflexivity].
    eapply clamp_depth_within_range; eassumption.
  - left. eapply point_rejected; eassumption.
Qed.

Lemma cloud_within_range_witness :
  exists p,
    cell (convert (T := float) (f32_image 2 2 (replicate 4 three_f32))
            unit_camera (f64_of_int 2) false None (blank_cloud 1))
         (cell_index 2 0 0) = Some p /\
    (nan_filled p \/
     exists (depth : float) (rgb : Z),
       f32_gt depth (fromMeters (T := float) (f64_of_int 2)) = false /\
       p = fill unit_camera (2 * 0) (2 * 0) depth rgb).
Proof.
  apply (cloud_within_range float float_sample float_traits
           (f32_image 2 2 (replicate 4 three_f32))
           unit_camera (f64_of_int 2) false None (blank_cloud 1)
           f32_gt_irrefl);
    first [reflexivity | lia].
Defined.

Section Decimation.

Context {T : Type} {sample : DepthSample T} {traits : DepthTraits T}.
Variable a b : Image.
Variable model : PinholeCameraModel.
Variable range_max : double.
Variable use_quiet_nan : bool.
Variable cv_ptr : option Mat.

(** Two images of one extent whose samples at even rows and columns are
    the same give the same cloud. *)
Lemma convert_even_samples (cloud_msg : PointCloud2) :
  height a = height b -> width a = width b -> step a = step b ->
  wf_depth a = true -> wf_depth b = true ->
  color_safe cv_ptr a = true ->
  half_up (height a) * half_up (width a)
    <= Z.of_nat (length (pc_data cloud_msg)) ->
  (forall i j : Z,
     0 <= i -> 2 * i < height a -> 0 <= j -> 2 * j < width a ->
     load_depth a (2 * i * row_step a) (2 * j)
     = load_depth b (2 * i * row_step b) (2 * j)) ->
  convert a model range_max use_quiet_nan cv_ptr cloud_msg
  = convert b model range_max use_quiet_nan cv_ptr cloud_msg.
Proof.
  intros Hh Hw Hs Hwfa Hwfb Hsafe Hroom Hsame.
  assert (Hsafeb : color_safe cv_ptr b = true).
  { unfold color_safe in *. rewrite <- Hh, <- Hw. exact Hsafe. }
  destruct (wf_depth_facts a Hwfa) as (Hha & Hwa & _).
  pose proof (half_up_bounds (height a)) as Hbh.
  pose proof (half_up_bounds (width a)) as Hbw.
  destruct (convert_safe a model range_max use_quiet_nan cv_ptr cloud_msg
              Hwfa Hsafe Hroom) as (ca & Hruna & Hlena & Hcellsa & Hresta).
  destruct (convert_safe b model range_max use_quiet_nan cv_ptr cloud_msg
              Hwfb Hsafeb ltac:(rewrite <- Hh, <- Hw; exact Hroom))
    as (cb & Hrunb & Hlenb & Hcellsb & Hrestb).
  rewrite Hruna, Hrunb. f_equal.
  destruct (convert_inv _ _ _ _ _ _ _ Hruna) as (-> & _).
  destruct (convert_inv _ _ _ _ _ _ _ Hrunb) as (-> & _).
  f_equal. apply list_eq. intros k.
  destruct (Z.lt_ge_cases (Z.of_nat k)
              (half_up (height a) * half_up (width a))) as [Hk|Hk].
  - set (hw := half_up (width a)) in *.
    assert (Hhw : 0 < hw) by nia.
    pose proof (Z.div_mod (Z.of_nat k) hw ltac:(lia)) as Hdm.
    pose proof (Z.mod_pos_bound (Z.of_nat k) hw Hhw) as Hmod.
    assert (Hq0 : 0 <= Z.of_nat k / hw) by (apply Z.div_pos; lia).
    assert (Hq : Z.of_nat k / hw < half_up (height a)).
    { apply Z.div_lt_upper_bound; [lia|]. nia. }
    assert (Hidx : cell_index (width a) (Z.of_nat k / hw) (Z.of_nat k mod hw) = k).
    { unfold cell_index. fold hw. lia. }
    destruct (Hcellsa (Z.of_nat k / hw) (Z.of_nat k mod hw))
      as (pa & Hpa & Hlooka); try lia.
    destruct (Hcellsb (Z.of_nat k / hw) (Z.of_nat k mod hw))
      as (pb & Hpb & Hlookb); try lia.
    rewrite <- Hw, Hidx in Hlookb. rewrite Hidx in Hlooka.
    rewrite Hlooka, Hlookb. f_equal.
    unfold sample_point, pixel in Hpa, Hpb.
    rewrite Hsame in Hpa by lia. rewrite Hpa in Hpb. congruence.
  - rewrite Hresta by lia. rewrite Hrestb by (rewrite <- Hh, <- Hw; lia).
    reflexivity.
Qed.

End Decimation.

(** X6: the decimation reads even rows and even columns only.  Two depth
    images of the same extent and step that agree on every sample at an
    even row and an even column give the same result, whatever their
    samples at odd rows or columns. *)
Theorem decimation_ignores_odd_pixels
    (T : Type) (sample : DepthSample T) (traits : DepthTraits T)
    (a b : Image) (model : PinholeCameraModel) (range_max : double)
    (use_quiet_nan : bool) (cv_ptr : option Mat) (cloud_msg : PointCloud2) :
  height a = height b -> width a = width b -> step a = step b ->
  wf_depth a = true -> wf_depth b = true ->
  color_safe cv_ptr a = true ->
  half_up (height a) * half_up (width a)
    <= Z.of_nat (length (pc_data cloud_msg)) ->
  (forall i j : Z,
     0 <= i -> 2 * i < height a -> 0 <= j -> 2 * j < width a ->
     load_depth a (2 * i * row_step a) (2 * j)
     = load_depth b (2 * i * row_step b) (2 * j)) ->
  convert a model range_max use_quiet_nan cv_ptr cloud_msg
  = convert b model range_max use_quiet_nan cv_ptr cloud_msg /\
  is_ok (convert a model range_max use_quiet_nan cv_ptr cloud_msg) = true.
Proof.
  intros Hh Hw Hs Hwfa Hwfb Hsafe Hroom Hsame. split.
  - apply convert_even_samples; assumption.
  - destruct (convert_safe a model range_max use_quiet_nan cv_ptr cloud_msg
                Hwfa Hsafe Hroom) as (ca & -> & _).
    reflexivity.
Qed.

Lemma decimation_ignores_odd_pixels_witness :
  convert (T := Z) (u16_image 2 2 [1000; 1; 2; 3]) unit_camera
    f64_zero true None (blank_cloud 1)
  = convert (T := Z) (u16_image 2 2 [1000; 9; 8; 7]) unit_camera
      f64_zero true None (blank_cloud 1).
Proof.
  apply (decimation_ignores_odd_pixels Z _ _
           (u16_image 2 2 [1000; 1; 2; 3]) (u16_image 2 2 [1000; 9; 8; 7])
           unit_camera f64_zero true None (blank_cloud 1));
    try first [reflexivity | simpl; lia].
  intros i j Hi0 Hi Hj0 Hj. simpl in Hi, Hj.
  assert (i = 0) as -> by lia. assert (j = 0) as -> by lia.
  reflexivity.
Defined.

(** X7: in a four-channel color matrix a pixel inside the matrix is
    packed from its bytes 2, 1 and 0 into bits 16-23, 8-15 and 0-7 of the
    rgb field, whose bits give the three bytes back; byte 3 plays no
    part. *)
Theorem four_channel_color_packed
    (T : Type) (sample : DepthSample T) (traits : DepthTraits T)
    (depth_msg : Image) (model : PinholeCameraModel) (range_max : double)
    (use_quiet_nan : bool) (cv : Mat) (cloud_msg : PointCloud2)
    (i j : Z) (d depth : T) (c2 c1 c0 : Z) :
  type cv = CV_8UC4 ->
  wf_depth depth_msg = true ->
  color_safe (Some cv) depth_msg = true ->
  half_up (height depth_msg) * half_up (width depth_msg)
    <= Z.of_nat (length (pc_data cloud_msg)) ->
  0 <= i -> 2 * i < height depth_msg ->
  0 <= j -> 2 * j < width depth_msg ->
  2 * i < rows cv -> 2 * j < cols cv ->
  load_depth depth_msg (2 * i * row_step depth_msg) (2 * j) = Ok d ->
  clamp_depth range_max use_quiet_nan d = Some depth ->
  mat_at cv 4 (2 * i) (2 * j) 2 = Ok c2 -> 0 <= c2 < 256 ->
  mat_at cv 4 (2 * i) (2 * j) 1 = Ok c1 -> 0 <= c1 < 256 ->
  mat_at cv 4 (2 * i) (2 * j) 0 = Ok c0 -> 0 <= c0 < 256 ->
  exists p,
    cell (convert depth_msg model range_max use_quiet_nan (Some cv) cloud_msg)
         (cell_index (width depth_msg) i j) = Some p /\
    rgb_bits p = c2 * 2 ^ 16 + c1 * 2 ^ 8 + c0 /\
    (rgb_bits p / 2 ^ 16) mod 2 ^ 8 = c2 /\
    (rgb_bits p / 2 ^ 8) mod 2 ^ 8 = c1 /\
    rgb_bits p mod 2 ^ 8 = c0.
Proof.
  intros Htype Hwf Hsafe Hroom Hi0 Hi Hj0 Hj Hrows Hcols Hd Hclamp
    Hc2 Hr2 Hc1 Hr1 Hc0 Hr0.
  destruct (convert_cell_point depth_msg model range_max use_quiet_nan (Some cv)
              cloud_msg i j d Hwf Hsafe Hroom Hi0 Hi Hj0 Hj Hd) as (p & Hp & Hcell).
  destruct (point_accepted _ _ _ _ _ _ _ _ _ Hclamp Hp) as (rgb & Hrgb & ->).
  rewrite color_at_8UC4 in Hrgb by exact Htype.
  destruct (Z.gtb_spec (rows cv) (2 * i)); [|lia].
  destruct (Z.gtb_spec (cols cv) (2 * j)); [|lia].
  simpl in Hrgb. rewrite Hc2 in Hrgb. simpl in Hrgb.
  rewrite Hc1 in Hrgb. simpl in Hrgb. rewrite Hc0 in Hrgb. simpl in Hrgb.
  injection Hrgb as <-.
  destruct (pack_channels c2 c1 c0 Hr2 Hr1 Hr0) as (Hb2 & Hb1 & Hb0 & Hbits).
  eexists. split; [exact Hcell|].
  unfold rgb_bits. simpl pt_rgb. rewrite Hbits.
  split; [|auto].
  rewrite pack_channels_value by assumption. reflexivity.
Qed.

Lemma four_channel_color_packed_witness :
  exists p,
    cell (convert (T := float) (f32_image 2 2 (replicate 4 one_f32)) unit_camera
            f64_zero true (Some bgra_pixel) (blank_cloud 1))
         (cell_index 2 0 0) = Some p /\
    rgb_bits p = 10 * 2 ^ 16 + 20 * 2 ^ 8 + 30 /\
    (rgb_bits p / 2 ^ 16) mod 2 ^ 8 = 10 /\
    (rgb_bits p / 2 ^ 8) mod 2 ^ 8 = 20 /\
    rgb_bits p mod 2 ^ 8 = 30.
Proof.
  apply (four_channel_color_packed float _ _
           (f32_image 2 2 (replicate 4 one_f32)) unit_camera f64_zero true
           bgra_pixel (blank_cloud 1) 0 0
           (float_of_bits one_f32) (float_of_bits one_f32) 10 20 30);
    first [reflexivity | simpl; lia].
Defined.

(** X8: in a four-channel color matrix a pixel outside the matrix
    contributes no color: the point is still written, with the all-zero
    pattern in its rgb field. *)
Theorem four_channel_outside_is_black
    (T : Type) (sample : DepthSample T) (traits : DepthTraits T)
    (depth_msg : Image) (model : PinholeCameraModel) (range_max : double)
    (use_quiet_nan : bool) (cv : Mat) (cloud_msg : PointCloud2)
    (i j : Z) (d depth : T) :
  type cv = CV_8UC4 ->
  wf_depth depth_msg = true ->
  color_safe (Some cv) depth_msg = true ->
  half_up (height depth_msg) * half_up (width depth_msg)
    <= Z.of_nat (length (pc_data cloud_msg)) ->
  0 <= i -> 2 * i < height depth_msg ->
  0 <= j -> 2 * j < width depth_msg ->
  rows cv <= 2 * i \/ cols cv <= 2 * j ->
  load_depth depth_msg (2 * i * row_step depth_msg) (2 * j) = Ok d ->
  clamp_depth range_max use_quiet_nan d = Some depth ->
  exists p,
    cell (convert depth_msg model range_max use_quiet_nan (Some cv) cloud_msg)
         (cell_index (width depth_msg) i j) = Some p /\
    p = fill model (2 * j) (2 * i) depth 0 /\
    rgb_bits p = 0.
Proof.
  intros Htype Hwf Hsafe Hroom Hi0 Hi Hj0 Hj Hout Hd Hclamp.
  destruct (convert_cell_point depth_msg model range_max use_quiet_nan (Some cv)
              cloud_msg i j d Hwf Hsafe Hroom Hi0 Hi Hj0 Hj Hd) as (p & Hp & Hcell).
  destruct (point_accepted _ _ _ _ _ _ _ _ _ Hclamp Hp) as (rgb & Hrgb & ->).
  rewrite color_at_8UC4 in Hrgb by exact Htype.
  assert (Htest : (rows cv >? 2 * i) && (cols cv >? 2 * j) = false).
  { destruct (Z.gtb_spec (rows cv) (2 * i)); [|reflexivity].
    destruct (Z.gtb_spec (cols cv) (2 * j)); [lia | reflexivity]. }
  rewrite Htest in Hrgb. injection Hrgb as <-.
  eexists. split; [exact Hcell|]. split; reflexivity.
Qed.

Lemma four_channel_outside_is_black_witness :
  exists p,
    cell (convert (T := float) (f32_image 2 4 (replicate 8 one_f32)) unit_camera
            f64_zero true (Some bgra_pixel) (blank_cloud 2))
         (cell_index 4 0 1) = Some p /\
    p = fill unit_camera (2 * 1) (2 * 0) (float_of_bits one_f32) 0 /\
    rgb_bits p = 0.
Proof.
  apply (four_channel_outside_is_black float _ _
           (f32_image 2 4 (replicate 8 one_f32)) unit_camera f64_zero true
           bgra_pixel (blank_cloud 2) 0 1
           (float_of_bits one_f32) (float_of_bits one_f32));
    first [reflexivity | simpl; lia].
Defined.

(** X9: with a three-channel color matrix every point that is not
    NaN-filled gets the same rgb field, made from the first byte of the
    matrix data, whichever pixel it is and whether or not that pixel lies
    inside the matrix. *)
Theorem three_channel_color_is_constant
    (T : Type) (sample : DepthSample T) (traits : DepthTraits T)
    (depth_msg : Image) (model : PinholeCameraModel) (range_max : double)
    (use_quiet_nan : bool) (cv : Mat) (cloud_msg : PointCloud2)
    (i j : Z) (d depth : T) (b0 : Z) :
  type cv = CV_8UC3 ->
  mat_data cv !! 0%nat = Some b0 ->
  wf_depth depth_msg = true ->
  half_up (height depth_msg) * half_up (width depth_msg)
    <= Z.of_nat (length (pc_data cloud_msg)) ->
  0 <= i -> 2 * i < height depth_msg ->
  0 <= j -> 2 * j < width depth_msg ->
  load_depth depth_msg (2 * i * row_step depth_msg) (2 * j) = Ok d ->
  clamp_depth range_max use_quiet_nan d = Some depth ->
  cell (convert depth_msg model range_max use_quiet_nan (Some cv) cloud_msg)
       (cell_index (width depth_msg) i j)
    = Some (fill model (2 * j) (2 * i) depth b0).
Proof.
  intros Htype Hb0 Hwf Hroom Hi0 Hi Hj0 Hj Hd Hclamp.
  assert (Hlen : (0 < length (mat_data cv))%nat)
    by (apply lookup_lt_is_Some; eauto).
  assert (Hsafe : color_safe (Some cv) depth_msg = true).
  { unfold color_safe. rewrite Htype. simpl. apply Z.leb_le. lia. }
  destruct (convert_cell_point depth_msg model range_max use_quiet_nan (Some cv)
              cloud_msg i j d Hwf Hsafe Hroom Hi0 Hi Hj0 Hj Hd) as (p & Hp & Hcell).
  destruct (point_accepted _ _ _ _ _ _ _ _ _ Hclamp Hp) as (rgb & Hrgb & ->).
  rewrite color_at_8UC3 in Hrgb by exact Htype.
  unfold mat_at in Hrgb.
  rewrite read_bytes_in_range in Hrgb by lia.
  simpl in Hrgb. injection Hrgb as <-.
  rewrite Hcell. do 2 f_equal.
  replace (mat_step cv * 0 + 3 * 0 + 0) with 0 by lia.
  destruct (mat_data cv) as [|b rest]; [discriminate|].
  simpl in Hb0. injection Hb0 as ->. simpl. lia.
Qed.

Lemma three_channel_color_is_constant_witness :
  cell (convert (T := float) (f32_image 2 4 (replicate 8 one_f32)) unit_camera
          f64_zero true (Some rgb_pixel) (blank_cloud 2))
       (cell_index 4 0 1)
    = Some (fill unit_camera (2 * 1) (2 * 0) (float_of_bits one_f32) 10).
Proof.
  apply (three_channel_color_is_constant float _ _
           (f32_image 2 4 (replicate 8 one_f32)) unit_camera f64_zero true
           rgb_pixel (blank_cloud 2) 0 1
           (float_of_bits one_f32) (float_of_bits one_f32) 10);
    first [reflexivity | simpl; lia].
Defined.

Lemma half_up_even (n : Z) : n mod 2 = 0 -> half_up n = n / 2.
Proof.
  intros Heven. unfold half_up.
  pose proof (Z.div_mod n 2 ltac:(lia)).
  pose proof (Z.div_mod (n + 1) 2 ltac:(lia)).
  pose proof (Z.mod_pos_bound (n + 1) 2 ltac:(lia)). lia.
Qed.

Lemma half_up_odd (n : Z) : n mod 2 = 1 -> half_up n = n / 2 + 1.
Proof.
  intros Hodd. unfold half_up.
  pose proof (Z.div_mod n 2 ltac:(lia)).
  pose proof (Z.div_mod (n + 1) 2 ltac:(lia)).
  pose proof (Z.mod_pos_bound (n + 1) 2 ltac:(lia)). lia.
Qed.

(** [depthCb] with camera info, by the encoding of the image. *)
Lemma depthCb_16UC1 (st : Node) (info : CameraInfo) (image : Image) :
  g_cam_info st = Some info ->
  encoding image = TYPE_16UC1 ->
  depthCb st image =
    (cloud ← convert (T := Z) image (fromCameraInfo info) (node_range_max st)
                      (node_use_quiet_nan st) (node_cv_ptr st) (new_cloud image);
     Ok (publish st cloud)).
Proof. intros Hinfo Henc. unfold depthCb. rewrite Hinfo, Henc. reflexivity. Qed.

Lemma depthCb_32FC1 (st : Node) (info : CameraInfo) (image : Image) :
  g_cam_info st = Some info ->
  encoding image = TYPE_32FC1 ->
  depthCb st image =
    (cloud ← convert (T := float) image (fromCameraInfo info) (node_range_max st)
                      (node_use_quiet_nan st) (node_cv_ptr st) (new_cloud image);
     Ok (publish st cloud)).
Proof. intros Hinfo Henc. unfold depthCb. rewrite Hinfo, Henc. reflexivity. Qed.

Lemma wf_frame_cases (image : Image) :
  wf_frame image = true ->
  (encoding image = TYPE_16UC1 /\ wf_depth (T := Z) image = true) \/
  (encoding image = TYPE_32FC1 /\ wf_depth (T := float) image = true).
Proof.
  unfold wf_frame.
  destruct (String.eqb_spec (encoding image) TYPE_16UC1); [auto|].
  destruct (String.eqb_spec (encoding image) TYPE_32FC1); [auto | discriminate].
Qed.

Lemma wf_frame_extent (image : Image) :
  wf_frame image = true ->
  0 <= height image < 2 ^ 31 /\ 0 <= width image < 2 ^ 31.
Proof.
  intros Hwf. destruct (wf_frame_cases image Hwf) as [[_ H]|[_ H]];
    apply wf_depth_facts in H; tauto.
Qed.

(** An even frame is converted into the cloud prepared for it. *)
Lemma depthCb_even_cloud
    (st : Node) (info : CameraInfo) (image : Image) :
  g_cam_info st = Some info ->
  wf_frame image = true ->
  color_safe (node_cv_ptr st) image = true ->
  height image mod 2 = 0 -> width image mod 2 = 0 ->
  (height image / 2) * (width image / 2) * point_step < 2 ^ 32 ->
  exists cloud,
    depthCb st image = Ok (publish st cloud) /\
    pc_height cloud = height image / 2 /\
    pc_width cloud = width image / 2 /\
    pc_is_dense cloud = false /\
    Z.of_nat (length (pc_data cloud)) = pc_height cloud * pc_width cloud /\
    (forall i j : Z,
       0 <= i < pc_height cloud -> 0 <= j < pc_width cloud ->
       exists p,
         frame_sample image (fromCameraInfo info) (node_range_max st)
           (node_use_quiet_nan st) (node_cv_ptr st) i j = Ok p /\
         pc_data cloud !! Z.to_nat (i * pc_width cloud + j) = Some p).
Proof.
  intros Hinfo Hwf Hsafe Heh Hew Hsmall.
  pose proof (half_up_even _ Heh) as Hhh.
  pose proof (half_up_even _ Hew) as Hhw.
  pose proof (Z.div_mod (height image) 2 ltac:(lia)) as Hdh.
  pose proof (Z.div_mod (width image) 2 ltac:(lia)) as Hdw.
  destruct (wf_frame_cases image Hwf) as [[Henc Hwfd]|[Henc Hwfd]].
  - destruct (convert_new_cloud_even image (fromCameraInfo info)
                (node_range_max st) (node_use_quiet_nan st) (node_cv_ptr st)
                Hwfd Hsafe Heh Hew Hsmall) as (cloud & Hrun & Hlen & Hcells).
    exists cloud. rewrite (depthCb_16UC1 st info image Hinfo Henc), Hrun.
    destruct (convert_inv _ _ _ _ _ _ _ Hrun) as (Hframe & _).
    rewrite Hhh, Hhw in Hlen.
    split; [reflexivity|]. rewrite Hframe. simpl.
    repeat split; try assumption.
    intros i j Hi Hj. unfold frame_sample. rewrite Henc. simpl.
    destruct (Hcells i j) as (p & Hp & Hlook); try lia.
    exists p. split; [exact Hp|].
    unfold cell_index in Hlook. rewrite Hhw in Hlook. exact Hlook.
  - destruct (convert_new_cloud_even image (fromCameraInfo info)
                (node_range_max st) (node_use_quiet_nan st) (node_cv_ptr st)
                Hwfd Hsafe Heh Hew Hsmall) as (cloud & Hrun & Hlen & Hcells).
    exists cloud. rewrite (depthCb_32FC1 st info image Hinfo Henc), Hrun.
    destruct (convert_inv _ _ _ _ _ _ _ Hrun) as (Hframe & _).
    rewrite Hhh, Hhw in Hlen.
    split; [reflexivity|]. rewrite Hframe. simpl.
    repeat split; try assumption.
    intros i j Hi Hj. unfold frame_sample. rewrite Henc. simpl.
    destruct (Hcells i j) as (p & Hp & Hlook); try lia.
    exists p. split; [exact Hp|].
    unfold cell_index in Hlook. rewrite Hhw in Hlook. exact Hlook.
Qed.

(** X10: a frame of even height and width, of a supported encoding and
    with camera info known, is published as a cloud of H/2 rows and W/2
    columns whose payload has exactly that many points, the sample of
    row 2i and column 2j at position i * (W/2) + j. *)
Theorem depthCb_even_frame
    (st : Node) (info : CameraInfo) (image : Image) :
  g_cam_info st = Some info ->
  wf_frame image = true ->
  color_safe (node_cv_ptr st) image = true ->
  height image mod 2 = 0 -> width image mod 2 = 0 ->
  (height image / 2) * (width image / 2) * point_step < 2 ^ 32 ->
  exists cloud,
    depthCb st image = Ok (publish st cloud) /\
    pc_height cloud = height image / 2 /\
    pc_width cloud = width image / 2 /\
    pc_is_dense cloud = false /\
    Z.of_nat (length (pc_data cloud)) = pc_height cloud * pc_width cloud /\
    (forall i j : Z,
       0 <= i < pc_height cloud -> 0 <= j < pc_width cloud ->
       exists p,
         frame_sample image (fromCameraInfo info) (node_range_max st)
           (node_use_quiet_nan st) (node_cv_ptr st) i j = Ok p /\
         pc_data cloud !! Z.to_nat (i * pc_width cloud + j) = Some p).
Proof. apply depthCb_even_cloud. Qed.

Lemma depthCb_even_frame_witness :
  exists cloud,
    depthCb example_node (f32_image 4 2 (replicate 8 five_f32))
      = Ok (publish example_node cloud) /\
    pc_height cloud = 2 /\ pc_width cloud = 1 /\
    Z.of_nat (length (pc_data cloud)) = 2.
Proof.
  destruct (depthCb_even_frame example_node
              {| info_fx := f64_of_int 1; info_fy := f64_of_int 1;
                 info_cx := f64_of_int 0; info_cy := f64_of_int 0 |}
              (f32_image 4 2 (replicate 8 five_f32)))
    as (cloud & Hrun & Hh & Hw & _ & Hlen & _);
    try first [reflexivity | vm_compute; reflexivity].
  exists cloud. rewrite Hlen, Hh, Hw. repeat split. exact Hrun.
Defined.

(** X11: a frame with an odd height or an odd width, of a supported
    encoding and with camera info known, makes [depthCb] write past the
    end of the cloud it has prepared: the cloud has (H/2) * (W/2) points,
    rounded down, and the loop samples more. *)
Theorem depthCb_odd_frame_overruns
    (st : Node) (info : CameraInfo) (image : Image) :
  g_cam_info st = Some info ->
  wf_frame image = true ->
  color_safe (node_cv_ptr st) image = true ->
  1 <= height image -> 1 <= width image ->
  height image mod 2 = 1 \/ width image mod 2 = 1 ->
  (height image / 2) * (width image / 2) * point_step < 2 ^ 32 ->
  Z.of_nat (length (pc_data (new_cloud image)))
    < half_up (height image) * half_up (width image) /\
  depthCb st image = Fault CloudOutOfBounds.
Proof.
  intros Hinfo Hwf Hsafe Hh1 Hw1 Hodd Hsmall.
  assert (Hshort : Z.of_nat (length (pc_data (new_cloud image)))
                   < half_up (height image) * half_up (width image)).
  { rewrite new_cloud_length by (assumption || lia).
    pose proof (half_up_bounds (height image)) as Hbh.
    pose proof (half_up_bounds (width image)) as Hbw.
    pose proof (Z.div_mod (height image) 2 ltac:(lia)) as Hdh.
    pose proof (Z.div_mod (width image) 2 ltac:(lia)) as Hdw.
    pose proof (Z.mod_pos_bound (height image) 2 ltac:(lia)).
    pose proof (Z.mod_pos_bound (width image) 2 ltac:(lia)).
    assert (0 <= height image / 2) by (apply Z.div_pos; lia).
    assert (0 <= width image / 2) by (apply Z.div_pos; lia).
    destruct Hodd as [Ho|Ho]; apply half_up_odd in Ho; nia. }
  split; [exact Hshort|].
  destruct (wf_frame_cases image Hwf) as [[Henc Hwfd]|[Henc Hwfd]].
  - rewrite (depthCb_16UC1 st info image Hinfo Henc).
    rewrite convert_short_cloud by assumption. reflexivity.
  - rewrite (depthCb_32FC1 st info image Hinfo Henc).
    rewrite convert_short_cloud by assumption. reflexivity.
Qed.

Lemma depthCb_odd_frame_overruns_witness :
  depthCb example_node (u16_image 2 5 (replicate 10 1000))
    = Fault CloudOutOfBounds.
Proof.
  apply (depthCb_odd_frame_overruns example_node
           {| info_fx := f64_of_int 1; info_fy := f64_of_int 1;
              info_cx := f64_of_int 0; info_cy := f64_of_int 0 |}
           (u16_image 2 5 (replicate 10 1000)));
    first [reflexivity | simpl; lia | right; reflexivity].
Defined.

(** What a call of [depthCb] that returns has done to the node. *)
Lemma depthCb_inv (st st' : Node) (image : Image) :
  depthCb st image = Ok st' ->
  st' = st \/
  exists info cloud,
    g_cam_info st = Some info /\
    st' = publish st cloud /\
    ((encoding image = TYPE_16UC1 /\
      convert (T := Z) image (fromCameraInfo info) (node_range_max st)
        (node_use_quiet_nan st) (node_cv_ptr st) (new_cloud image) = Ok cloud) \/
     (encoding image = TYPE_32FC1 /\
      convert (T := float) image (fromCameraInfo info) (node_range_max st)
        (node_use_quiet_nan st) (node_cv_ptr st) (new_cloud image) = Ok cloud)).
Proof.
  unfold depthCb. destruct (g_cam_info st) as [info|].
  - destruct (String.eqb_spec (encoding image) TYPE_16UC1) as [H16|].
    + destruct (convert _ _ _ _ _ _) as [cloud|] eqn:Hrun; [|discriminate].
      simpl. intros Heq. injection Heq as <-. right. exists info, cloud. auto.
    + destruct (String.eqb_spec (encoding image) TYPE_32FC1) as [H32|].
      * destruct (convert _ _ _ _ _ _) as [cloud|] eqn:Hrun; [|discriminate].
        simpl. intros Heq. injection Heq as <-. right. exists info, cloud. auto.
      * intros Heq. injection Heq as <-. auto.
  - intros Heq. injection Heq as <-. auto.
Qed.

(** X12: whatever [depthCb] publishes for an image declares H/2 rows and
    W/2 columns, is never marked dense or big-endian, and has the payload
    [setPointCloud2FieldsByString] sized for that extent; it publishes at
    most one cloud, and only with camera info and a supported encoding. *)
Theorem published_cloud_header (st st' : Node) (image : Image) :
  depthCb st image = Ok st' ->
  st' = st \/
  exists cloud,
    st' = publish st cloud /\
    g_cam_info st <> None /\
    (encoding image = TYPE_16UC1 \/ encoding image = TYPE_32FC1) /\
    pc_height cloud = height image / 2 /\
    pc_width cloud = width image / 2 /\
    pc_is_dense cloud = false /\
    pc_is_bigendian cloud = false /\
    Z.of_nat (length (pc_data cloud))
      = Z.max 0 (cloud_points (height image / 2) (width image / 2)).
Proof.
  intros Hrun. apply depthCb_inv in Hrun as [->|(info & cloud & Hinfo & -> & Hconv)];
    [left; reflexivity|].
  right. exists cloud. split; [reflexivity|]. split; [congruence|].
  assert (Hframe : cloud = set_data (new_cloud image) (pc_data cloud) /\
                   length (pc_data cloud) = length (pc_data (new_cloud image))).
  { destruct Hconv as [[_ Hc]|[_ Hc]];
      apply convert_inv in Hc as (Hf & Hl & _); auto. }
  destruct Hframe as (Hframe & Hlen).
  split; [destruct Hconv as [[? _]|[? _]]; auto|].
  rewrite Hlen, Hframe. simpl. rewrite length_replicate.
  repeat split. lia.
Qed.

Lemma published_cloud_header_witness :
  exists cloud,
    depthCb example_node (f32_image 4 2 (replicate 8 five_f32))
      = Ok (publish example_node cloud) /\
    pc_is_dense cloud = false /\ pc_height cloud = 2 /\ pc_width cloud = 1.
Proof.
  destruct (depthCb example_node (f32_image 4 2 (replicate 8 five_f32)))
    as [st'|f] eqn:Hrun.
  - destruct (published_cloud_header _ _ _ Hrun)
      as [->|(cloud & -> & _ & _ & Hh & Hw & Hd & _)].
    + vm_compute in Hrun. discriminate.
    + exists cloud. auto.
  - vm_compute in Hrun. discriminate.
Defined.

Section Spin.

Variable toCvShare : Image -> option Mat.

Lemma deliver_keeps_parameters (st st' : Node) (m : message) :
  deliver toCvShare st m = Ok st' ->
  node_range_max st' = node_range_max st /\
  node_use_quiet_nan st' = node_use_quiet_nan st /\
  colorful st' = colorful st /\
  (colorful st = false -> node_cv_ptr st' = node_cv_ptr st).
Proof.
  destruct m as [msg|image|info]; simpl.
  - destruct (colorful st) eqn:Hc; intros Heq; injection Heq as <-.
    + unfold imageCb. destruct (toCvShare msg); simpl; auto.
      repeat split; auto. discriminate.
    + auto.
  - intros Hrun. apply depthCb_inv in Hrun as [->|(info & cloud & _ & -> & _)];
      simpl; auto.
  - intros Heq. injection Heq as <-. simpl. auto.
Qed.

Lemma deliver_published (st st' : Node) (m : message) :
  deliver toCvShare st m = Ok st' ->
  published st' = published st \/
  (is_depth m = true /\ g_cam_info st <> None /\
   exists cloud, published st' = cloud :: published st).
Proof.
  destruct m as [msg|image|info]; simpl.
  - destruct (colorful st); intros Heq; injection Heq as <-; [|auto].
    unfold imageCb. destruct (toCvShare msg); auto.
  - intros Hrun.
    apply depthCb_inv in Hrun as [->|(info & cloud & Hinfo & -> & _)]; [auto|].
    right. split; [reflexivity|]. split; [congruence|]. exists cloud. reflexivity.
  - intros Heq. injection Heq as <-. auto.
Qed.

End Spin.

(** X13: until camera info has arrived nothing is published and nothing
    fails: every depth frame is dropped before it is looked at, whatever
    its encoding, extent or payload. *)
Theorem nothing_published_before_camera_info
    (toCvShare : Image -> option Mat) (msgs : list message) :
  forall st : Node,
    g_cam_info st = None ->
    forallb (fun m => negb (is_info m)) msgs = true ->
    exists st',
      spin toCvShare st msgs = Ok st' /\
      g_cam_info st' = None /\
      published st' = published st.
Proof.
  induction msgs as [|m rest IH]; intros st Hnone Hall; simpl.
  - exists st. auto.
  - simpl in Hall. apply andb_prop in Hall as [Hm Hrest].
    assert (Hstep : exists st1, deliver toCvShare st m = Ok st1 /\
                      g_cam_info st1 = None /\ published st1 = published st).
    { destruct m as [msg|image|info]; simpl in *; [| |discriminate].
      - destruct (colorful st); [|eauto].
        unfold imageCb. destruct (toCvShare msg); eauto.
      - unfold depthCb. rewrite Hnone. eauto. }
    destruct Hstep as (st1 & -> & Hnone1 & Hpub1). simpl.
    destruct (IH st1 Hnone1 Hrest) as (st' & Hrun & Hnone' & Hpub').
    exists st'. split; [exact Hrun|]. split; [exact Hnone'|]. congruence.
Qed.

Lemma nothing_published_before_camera_info_witness :
  exists st',
    spin (fun _ => None) default_node
      [DepthMsg (u16_image 3 3 (replicate 9 1000));
       ImageMsg (image_of "rgb8" 3 1 1 [1; 2; 3]);
       DepthMsg (f32_image 1 1 [])] = Ok st' /\
    g_cam_info st' = None /\
    published st' = published default_node.
Proof.
  apply (nothing_published_before_camera_info (fun _ => None)
           [DepthMsg (u16_image 3 3 (replicate 9 1000));
            ImageMsg (image_of "rgb8" 3 1 1 [1; 2; 3]);
            DepthMsg (f32_image 1 1 [])] default_node);
    reflexivity.
Defined.

(** X14: the callbacks never change the parameters, and a node that is
    not [colorful] never takes a color image: after any run that returns,
    [range_max], [use_quiet_nan] and [colorful] are as the constructor set
    them, and without [colorful] the color pointer is as it was (null). *)
Theorem parameters_fixed_and_color_gated
    (toCvShare : Image -> option Mat) (msgs : list message) :
  forall st st' : Node,
    spin toCvShare st msgs = Ok st' ->
    node_range_max st' = node_range_max st /\
    node_use_quiet_nan st' = node_use_quiet_nan st /\
    colorful st' = colorful st /\
    (colorful st = false -> node_cv_ptr st' = node_cv_ptr st).
Proof.
  induction msgs as [|m rest IH]; intros st st'; simpl.
  - intros Heq. injection Heq as <-. auto.
  - destruct (deliver toCvShare st m) as [st1|] eqn:Hstep; [|discriminate].
    simpl. intros Hrun.
    apply deliver_keeps_parameters in Hstep as (Hr1 & Hq1 & Hc1 & Hcv1).
    apply IH in Hrun as (Hr & Hq & Hc & Hcv).
    repeat split; try congruence.
    intros Hoff. rewrite Hcv by congruence. auto.
Qed.

Lemma parameters_fixed_and_color_gated_witness :
  match spin (fun _ => Some rgb_pixel) default_node
          [ImageMsg (image_of "rgb8" 3 1 1 [1; 2; 3]);
           InfoMsg {| info_fx := f64_of_int 1; info_fy := f64_of_int 1;
                      info_cx := f64_of_int 0; info_cy := f64_of_int 0 |};
           DepthMsg (f32_image 2 2 (replicate 4 five_f32))] with
  | Ok st' => node_cv_ptr st' = None /\ colorful st' = false
  | Fault _ => False
  end.
Proof.
  destruct (spin _ _ _) as [st'|f] eqn:Hrun.
  - destruct (parameters_fixed_and_color_gated _ _ _ _ Hrun)
      as (_ & _ & Hc & Hcv).
    split; [apply Hcv; reflexivity | exact Hc].
  - vm_compute in Hrun. discriminate.
Defined.

(** X15: publications are append-only and at most one per depth frame:
    after any run that returns, what was published before is still there,
    under at most as many new clouds as depth frames were delivered. *)
Theorem published_append_only
    (toCvShare : Image -> option Mat) (msgs : list message) :
  forall st st' : Node,
    spin toCvShare st msgs = Ok st' ->
    exists new : list PointCloud2,
      published st' = new ++ published st /\
      (length new <= length (filter (fun m => is_depth m = true) msgs))%nat.
Proof.
  induction msgs as [|m rest IH]; intros st st'; simpl.
  - intros Heq. injection Heq as <-. exists []. split; [reflexivity | simpl; lia].
  - destruct (deliver toCvShare st m) as [st1|] eqn:Hstep; [|discriminate].
    simpl. intros Hrun.
    apply IH in Hrun as (new & Hnew & Hcount).
    apply deliver_published in Hstep as [Hsame|(Hd & _ & cloud & Hpub)].
    + exists new. split; [congruence|].
      rewrite filter_cons. destruct (decide _); simpl; lia.
    + exists (new ++ [cloud]). split.
      * rewrite Hnew, Hpub, <- app_assoc. reflexivity.
      * rewrite filter_cons. destruct (decide _) as [|Hn]; [|congruence].
        rewrite length_app. simpl. lia.
Qed.

Lemma published_append_only_witness :
  match spin (fun _ => None) example_node
          [DepthMsg (f32_image 2 2 (replicate 4 five_f32));
           DepthMsg (image_of "8UC1" 1 2 2 [1; 2; 3; 4])] with
  | Ok st' => (length (published st') <= 2)%nat
  | Fault _ => False
  end.
Proof.
  destruct (spin _ _ _) as [st'|f] eqn:Hrun.
  - destruct (published_append_only _ _ _ _ Hrun) as (new & -> & Hcount).
    rewrite length_app. simpl in *. lia.
  - vm_compute in Hrun. discriminate.
Defined.

(** X16: camera info followed by a depth frame.  Whatever info the node
    held before, the frame is converted with the info that has just
    arrived, and a well-formed frame of even extent is published as one
    cloud on top of what was published before. *)
Theorem first_frame_after_info
    (toCvShare : Image -> option Mat) (st : Node) (info : CameraInfo)
    (image : Image) :
  wf_frame image = true ->
  color_safe (node_cv_ptr st) image = true ->
  height image mod 2 = 0 -> width image mod 2 = 0 ->
  (height image / 2) * (width image / 2) * point_step < 2 ^ 32 ->
  exists cloud st',
    spin toCvShare st [InfoMsg info; DepthMsg image] = Ok st' /\
    published st' = cloud :: published st /\
    g_cam_info st' = Some info /\
    Z.of_nat (length (pc_data cloud)) = (height image / 2) * (width image / 2) /\
    (forall i j : Z,
       0 <= i < height image / 2 -> 0 <= j < width image / 2 ->
       exists p,
         frame_sample image (fromCameraInfo info) (node_range_max st)
           (node_use_quiet_nan st) (node_cv_ptr st) i j = Ok p /\
         pc_data cloud !! Z.to_nat (i * (width image / 2) + j) = Some p).
Proof.
  intros Hwf Hsafe Heh Hew Hsmall.
  destruct (depthCb_even_cloud (infoCb st info) info image eq_refl Hwf Hsafe
              Heh Hew Hsmall)
    as (cloud & Hrun & Hh & Hw & _ & Hlen & Hcells).
  exists cloud, (publish (infoCb st info) cloud).
  simpl. rewrite Hrun. simpl.
  split; [reflexivity|]. split; [reflexivity|]. split; [reflexivity|].
  rewrite Hh, Hw in Hlen. split; [exact Hlen|].
  intros i j Hi Hj. rewrite <- Hw. apply Hcells; lia.
Qed.

Lemma first_frame_after_info_witness :
  exists cloud st',
    spin (fun _ => None) default_node
      [InfoMsg {| info_fx := f64_of_int 1; info_fy := f64_of_int 1;
                  info_cx := f64_of_int 0; info_cy := f64_of_int 0 |};
       DepthMsg (u16_image 2 6 (replicate 12 1000))] = Ok st' /\
    published st' = [cloud] /\
    Z.of_nat (length (pc_data cloud)) = 3.
Proof.
  destruct (first_frame_after_info (fun _ => None) default_node
              {| info_fx := f64_of_int 1; info_fy := f64_of_int 1;
                 info_cx := f64_of_int 0; info_cy := f64_of_int 0 |}
              (u16_image 2 6 (replicate 12 1000)))
    as (cloud & st' & Hrun & Hpub & _ & Hlen & _);
    try first [reflexivity | vm_compute; reflexivity].
  exists cloud, st'. split; [exact Hrun|]. split; [exact Hpub | exact Hlen].
Defined.
